(** * youtube-search-results: the worker (ingestor) and the server (query
    service), embedded from [worker/main.go] and [server/main.go].

    The two Go programs are translated function by function.  Go's [int]
    is a 64-bit integer, written here as [Z] with its wrap-around made
    explicit; the Mongo database, the YouTube client and the pieces of the
    Go standard library the handlers call ([strconv], [net/url],
    [encoding/json]) are modelled next to the code that uses them. *)

From Stdlib Require Import ZArith String Ascii List Bool Lia DecimalString DecimalPos
  Sorted.
From stdpp Require Import gmap strings list fin_maps sorting.

Import ListNotations.
Local Open Scope Z_scope.

(** ** Go runtime *)

Module GoInt.

(** The 64-bit two's complement [int] of the target platform. *)
Definition minInt : Z := - 2 ^ 63.
Definition maxInt : Z := 2 ^ 63 - 1.

Definition inRange (z : Z) : bool := (minInt <=? z) && (z <=? maxInt).

(** Overflowing arithmetic wraps around silently. *)
Definition wrap (z : Z) : Z := (z + 2 ^ 63) mod 2 ^ 64 - 2 ^ 63.

Definition add (a b : Z) : Z := wrap (a + b).
Definition sub (a b : Z) : Z := wrap (a - b).
Definition mul (a b : Z) : Z := wrap (a * b).

End GoInt.

(** What running a piece of Go code ends in: a value, or a run-time panic
    (which, unrecovered, takes the whole process down). *)
Inductive Exec (A : Type) : Type :=
| Ret (a : A)
| Panic (msg : string).
Arguments Ret {A} a.
Arguments Panic {A} msg.

Definition nilDereference : string :=
  "runtime error: invalid memory address or nil pointer dereference".

(** ** strconv *)

Module strconv.

Definition digitOf (c : ascii) : option Z :=
  let n := Z.of_N (N_of_ascii c) - 48 in
  if (0 <=? n) && (n <=? 9) then Some n else None.

Fixpoint digits (s : string) (acc : Z) : option Z :=
  match s with
  | EmptyString => Some acc
  | String c rest =>
      match digitOf c with
      | Some d => digits rest (acc * 10 + d)
      | None => None
      end
  end.

(** [strconv.Atoi]: an optional sign and at least one decimal digit, the
    value within [int]; [None] stands for a non-nil [error] (syntax or
    range). *)
Definition Atoi (s : string) : option Z :=
  match s with
  | EmptyString => None
  | String c rest =>
      let '(neg, body) :=
        if Ascii.eqb c "-" then (true, rest)
        else if Ascii.eqb c "+" then (false, rest)
        else (false, s) in
      match body with
      | EmptyString => None
      | _ =>
          match digits body 0 with
          | Some n =>
              let v := if neg then - n else n in
              if GoInt.inRange v then Some v else None
          | None => None
          end
      end
  end.

(** [strconv.Itoa]: the decimal rendering. *)
Definition Itoa (z : Z) : string := NilZero.string_of_int (Z.to_int z).

End strconv.

(** ** net/url *)

Module url.

(** [url.Values] is [map[string][]string]. *)
Abbreviation Values := (gmap string (list string)).

Definition Get (v : Values) (key : string) : string :=
  match v !! key with
  | Some (x :: _) => x
  | _ => ""
  end.

Definition Set_ (v : Values) (key value : string) : Values :=
  <[key := [value]]> v.

Definition hexDigit (n : N) : ascii :=
  ascii_of_N (if (n <? 10)%N then 48 + n else 55 + n)%N.

Definition unreserved (c : ascii) : bool :=
  let n := N_of_ascii c in
  ((48 <=? n) && (n <=? 57) || (65 <=? n) && (n <=? 90)
   || (97 <=? n) && (n <=? 122)
   || (n =? 45) || (n =? 95) || (n =? 46) || (n =? 126))%N.

(** [url.QueryEscape]. *)
Fixpoint QueryEscape (s : string) : string :=
  match s with
  | EmptyString => EmptyString
  | String c rest =>
      let n := N_of_ascii c in
      if unreserved c then String c (QueryEscape rest)
      else if (n =? 32)%N then String "+" (QueryEscape rest)
      else String "%" (String (hexDigit (n / 16)) (String (hexDigit (n mod 16))
                                                     (QueryEscape rest)))
  end.

Fixpoint insertKey (k : string * list string) (l : list (string * list string))
  : list (string * list string) :=
  match l with
  | [] => [k]
  | x :: rest => if String.leb (fst k) (fst x) then k :: l else x :: insertKey k rest
  end.

Definition sortedByKey (v : Values) : list (string * list string) :=
  foldr insertKey [] (map_to_list v).

Definition joinAmp (parts : list string) : string :=
  match parts with
  | [] => ""
  | p :: rest => fold_left (fun acc x => acc ++ "&" ++ x)%string rest p
  end.

(** [Values.Encode]: "URL encoded" form, sorted by key. *)
Definition Encode (v : Values) : string :=
  joinAmp
    (flat_map
       (fun kv => map (fun x => (QueryEscape (fst kv) ++ "=" ++ QueryEscape x)%string)
                      (snd kv))
       (sortedByKey v)).

(** The request URL of an origin-form request: a path and a query.  The
    query is kept in parsed form: [URL.Query()] of a query string that
    [Values.Encode] produced gives the encoded values back, and the
    handlers only ever read the query through [Query()] and write it
    through [Encode()]. *)
Record URL := { Path : string; EscapedPath : string; RawQuery : Values }.

Definition Query (u : URL) : Values := RawQuery u.

Definition setRawQuery (u : URL) (q : Values) : URL :=
  {| Path := Path u; EscapedPath := EscapedPath u; RawQuery := q |}.

(** [URL.String()] once [RawQuery] is non-empty. *)
Definition String_ (u : URL) : string :=
  (EscapedPath u ++ "?" ++ Encode (RawQuery u))%string.

End url.

(** ** The data both programs share *)

(** [Video], declared verbatim in both programs.  [ID] is the
    store-assigned object id ([0] is the zero value of a document not yet
    inserted), [PublishedAt] an instant in seconds since the Unix epoch. *)
Record Video := {
  ID : N;
  YoutubeID : string;
  Title : string;
  Description : string;
  PublishedAt : Z;
  ThumbnailUrl : string
}.

(** The zero [time.Time] (January 1, year 1, UTC). *)
Definition zeroTime : Z := -62135596800.

(** [keywordExistsIn], also verbatim in both programs. *)
Fixpoint keywordExistsIn (keyword : string) (list : list string) : bool :=
  match list with
  | [] => false
  | c :: rest => if String.eqb c keyword then true else keywordExistsIn keyword rest
  end.

(** ** The document store *)

Module mongo.

(** A stored BSON document: the fields the indexes and the sort read, and
    whether [cursor.Decode] into a [Video] succeeds on it (documents
    written by the worker always decode; a document put there by other
    means may carry a field of the wrong type). *)
Record Doc := { fields : Video; decodes : bool }.

Definition Decode (d : Doc) : option Video :=
  if decodes d then Some (fields d) else None.

Inductive Index :=
| PublishedAtDesc        (* {publishedAt: -1} *)
| TextTitleDescription   (* {title: "text", description: "text"} *)
| UniqueYoutubeId.       (* {youtubeId: 1}, unique *)

Definition Index_eqb (a b : Index) : bool :=
  match a, b with
  | PublishedAtDesc, PublishedAtDesc
  | TextTitleDescription, TextTitleDescription
  | UniqueYoutubeId, UniqueYoutubeId => true
  | _, _ => false
  end.

Definition hasIndex (i : Index) (l : list Index) : bool := existsb (Index_eqb i) l.

Record Collection := { docs : list Doc; indexes : list Index; nextId : N }.

(** A database: its collections by name. *)
Abbreviation Database := (gmap string Collection).

Definition emptyCollection : Collection :=
  {| docs := []; indexes := []; nextId := 1 |}.

(** [database.Collection(name)] is a handle; reading through it sees an
    empty collection when none exists under that name. *)
Definition view (db : Database) (name : string) : Collection :=
  default emptyCollection (db !! name).

(** *** Listing *)

(** [ListCollectionNames]; [None] is a non-nil error. *)
Definition ListCollectionNames (reachable : bool) (db : Database)
  : option (list string) :=
  if reachable then Some (map fst (map_to_list db)) else None.

(** *** Index creation *)

Definition addIndex (l : list Index) (i : Index) : list Index :=
  if hasIndex i l then l else l ++ [i].

(** [Indexes().CreateMany]: creates the collection when it is missing and
    adds the indexes it does not yet have. *)
Definition CreateMany (reachable : bool) (db : Database) (name : string)
  (models : list Index) : Database * bool :=
  if reachable then
    let c := view db name in
    (<[name := {| docs := docs c;
                  indexes := fold_left addIndex models (indexes c);
                  nextId := nextId c |}]> db, true)
  else (db, false).

(** *** Insertion *)

Definition hasYoutubeId (id : string) (ds : list Doc) : bool :=
  existsb (fun d => String.eqb (YoutubeID (fields d)) id) ds.

(** How many documents of [ds] carry the [youtubeId] [id]. *)
Definition countYoutubeId (id : string) (ds : list Doc) : nat :=
  length (List.filter (fun d => String.eqb (YoutubeID (fields d)) id) ds).

Definition stored (v : Video) (id : N) : Doc :=
  {| fields := {| ID := id; YoutubeID := YoutubeID v; Title := Title v;
                  Description := Description v; PublishedAt := PublishedAt v;
                  ThumbnailUrl := ThumbnailUrl v |};
     decodes := true |}.

(** One batch write.  A document whose [youtubeId] is already taken fails
    with a duplicate-key error when the unique index exists; an ordered
    write stops at the first failure, an unordered one goes on with the
    rest.  The result is the collection and the number of write errors. *)
Fixpoint insertDocs (ordered unique : bool) (batch : list Video)
  (ds : list Doc) (next : N) : list Doc * N * nat :=
  match batch with
  | [] => (ds, next, O)
  | v :: rest =>
      if unique && hasYoutubeId (YoutubeID v) ds then
        if ordered then (ds, next, 1%nat)
        else let '(ds', next', e) := insertDocs ordered unique rest ds next in
             (ds', next', S e)
      else insertDocs ordered unique rest (ds ++ [stored v next]) (next + 1)%N
  end.

(** [InsertMany]; the boolean is [err == nil].  An empty batch is
    refused by the driver before anything is sent. *)
Definition InsertMany (reachable : bool) (db : Database) (name : string)
  (batch : list Video) (ordered : bool) : Database * bool :=
  match batch with
  | [] => (db, false)
  | _ =>
      if reachable then
        let c := view db name in
        let '(ds, next, errors) :=
          insertDocs ordered (hasIndex UniqueYoutubeId (indexes c)) batch
                     (docs c) (nextId c) in
        (<[name := {| docs := ds; indexes := indexes c; nextId := next |}]> db,
         match errors with O => true | _ => false end)
      else (db, false)
  end.

(** *** Queries *)

Inductive Filter :=
| All                      (* bson.D{} *)
| Text (search : string).  (* {$text: {$search: search}} *)

Inductive Sort := ByPublishedAtDesc.

Record FindOptions := { Skip : Z; Limit : Z; SortBy : Sort }.

Fixpoint insertDesc (d : Doc) (l : list Doc) : list Doc :=
  match l with
  | [] => [d]
  | x :: rest =>
      if PublishedAt (fields x) <? PublishedAt (fields d)
      then d :: l else x :: insertDesc d rest
  end.

(** Most recent first; documents of equal [publishedAt] keep the order
    they were stored in. *)
Definition sortDesc (l : list Doc) : list Doc := foldr insertDesc [] l.

(** The server's reading of [limit]: [0] is no limit, a negative number
    [-n] is at most [n] documents (in one batch). *)
Definition applyLimit (n : Z) (l : list Doc) : list Doc :=
  if n =? 0 then l else take (Z.to_nat (Z.abs n)) l.

Section Find.

(** Whether a document matches a [$text] search is the text index's
    business (tokenising, stemming, stop words). *)
Variable textMatch : string -> Video -> bool.

Definition matching (f : Filter) (c : Collection) : list Doc :=
  match f with
  | All => docs c
  | Text s => filter (fun d => textMatch s (fields d) = true) (docs c)
  end.

(** [Find], read to the end of the cursor; [None] is a non-nil error:
    the store cannot be reached, [skip] is negative, or a [$text]
    query is run on an existing collection without a text index. *)
Definition Find (reachable : bool) (db : Database) (name : string)
  (f : Filter) (o : FindOptions) : option (list Doc) :=
  if negb reachable then None
  else if Skip o <? 0 then None
  else
    match db !! name with
    | None => Some []
    | Some c =>
        match f with
        | Text _ =>
            if hasIndex TextTitleDescription (indexes c)
            then Some (applyLimit (Limit o)
                         (drop (Z.to_nat (Skip o)) (sortDesc (matching f c))))
            else None
        | All =>
            Some (applyLimit (Limit o)
                    (drop (Z.to_nat (Skip o)) (sortDesc (matching f c))))
        end
    end.

End Find.

End mongo.


(** ** encoding/json *)

Module json.

#[warnings="-register-all"]
Inductive Value :=
| Null
| Number (z : Z)
| Str (s : string)
| ObjectId (id : N)     (* rendered as its 24-digit hex string *)
| Time (t : Z)          (* rendered in RFC 3339 *)
| Array (items : list Value)
| Object (members : list (string * Value)).

(** A string field tagged [omitempty]. *)
Definition omitempty (name value : string) : list (string * Value) :=
  if String.eqb value "" then [] else [(name, Str value)].

Definition hasMember (name : string) (v : Value) : bool :=
  match v with
  | Object members => existsb (fun m => String.eqb (fst m) name) members
  | _ => false
  end.

Definition member (name : string) (v : Value) : option Value :=
  match v with
  | Object members =>
      option_map snd (List.find (fun m => String.eqb (fst m) name) members)
  | _ => None
  end.

End json.

(** What [json.Marshal] makes of a [Video]: the string fields are tagged
    [omitempty]; an array ([_id]) and a struct ([publishedAt]) are never
    empty. *)
Definition marshalVideo (v : Video) : json.Value :=
  json.Object
    ([("_id", json.ObjectId (ID v))]
       ++ json.omitempty "youtubeId" (YoutubeID v)
       ++ json.omitempty "title" (Title v)
       ++ json.omitempty "description" (Description v)
       ++ [("publishedAt", json.Time (PublishedAt v))]
       ++ json.omitempty "thumbnailUrl" (ThumbnailUrl v)).

(** ** The server *)

Module server.

Definition defaultLimit : Z := 10.
Definition maxLimit : Z := 50.

Definition StatusOK : Z := 200.
Definition StatusBadRequest : Z := 400.
Definition StatusInternalServerError : Z := 500.

Record Error := { Code : Z; Message : string }.

Definition internalError : Error :=
  {| Code := StatusInternalServerError; Message := "Internal error" |}.

(** What a handler leaves on the [http.ResponseWriter]. *)
Inductive Body :=
| Plain (text : string)
| Json (v : json.Value).

Record Response := { Status : Z; ContentType : string; Content : Body }.

(** [http.Error] sends the message and a newline as plain text. *)
Definition writeHttpResponse (e : Error) : Response :=
  {| Status := Code e;
     ContentType := "text/plain; charset=utf-8";
     Content := Plain (Message e ++ String "010" "") |}.

Record videosResponseMsg := {
  Page : Z;
  Limit : Z;
  Result : list Video;
  Prev : string;
  Next : string
}.

(** None of the five fields is tagged [omitempty]; a nil slice is
    rendered [null]. *)
Definition marshalResponse (m : videosResponseMsg) : json.Value :=
  json.Object
    [("page", json.Number (Page m));
     ("limit", json.Number (Limit m));
     ("result", match Result m with
                | [] => json.Null
                | vs => json.Array (map marshalVideo vs)
                end);
     ("prev", json.Str (Prev m));
     ("next", json.Str (Next m))].

(** The store as the handler sees it: the two calls it makes on
    [database], each answering with a value or a non-nil error ([None]). *)
Record Store := {
  ListCollectionNames : option (list string);
  Find : string -> mongo.Filter -> mongo.FindOptions -> option (list mongo.Doc)
}.

Inductive Call :=
| ListCollectionNamesCall
| FindCall (collection : string) (filter : mongo.Filter) (o : mongo.FindOptions).

(** The package-level [existingCollections], what [log] printed and the
    calls made on the store, oldest first. *)
Record World := {
  existingCollections : list string;
  logged : list string;
  calls : list Call
}.

Definition logLine (w : World) (line : string) : World :=
  {| existingCollections := existingCollections w;
     logged := logged w ++ [line];
     calls := calls w |}.

Definition called (w : World) (c : Call) : World :=
  {| existingCollections := existingCollections w;
     logged := logged w;
     calls := calls w ++ [c] |}.

Definition setExistingCollections (w : World) (l : list string) : World :=
  {| existingCollections := l; logged := logged w; calls := calls w |}.

(** [fmt.Sprintf("Videos for %s are not being collected", keyword)]. *)
Definition notCollected (keyword : string) : string :=
  ("Videos for " ++ keyword ++ " are not being collected")%string.

Definition validateKeyword (st : Store) (w : World) (keyword : string)
  : option Error * World :=
  if keywordExistsIn keyword (existingCollections w) then (None, w)
  else
    let w := called w ListCollectionNamesCall in
    match ListCollectionNames st with
    | None => (Some internalError, logLine w "Error: Unable to get list of collections")
    | Some collections =>
        let w := setExistingCollections w collections in
        if keywordExistsIn keyword (existingCollections w) then (None, w)
        else (Some {| Code := StatusBadRequest; Message := notCollected keyword |}, w)
    end.

Record Request := { Host : string; URL : url.URL }.

(** [r.URL.Path[len("/videos/"):]]; the handler is registered on
    ["/videos/"], so the path starts with these eight bytes. *)
Definition keywordOf (r : Request) : string :=
  let p := url.Path (URL r) in
  String.substring 8 (String.length p - 8) p.

(** [page] and [limit] as read from the query, with what was logged. *)
Definition pageOf (q : url.Values) : Z :=
  match strconv.Atoi (url.Get q "page") with
  | Some page => page
  | None => 0
  end.

Definition limitOf (q : url.Values) : Z :=
  match strconv.Atoi (url.Get q "limit") with
  | Some limit => limit
  | None => defaultLimit
  end.

Definition findOptionsOf (page limit : Z) : mongo.FindOptions :=
  {| mongo.Skip := GoInt.mul page limit;
     mongo.Limit := GoInt.add limit 1;
     mongo.SortBy := mongo.ByPublishedAtDesc |}.

Definition filterOf (search : string) : mongo.Filter :=
  if String.eqb search "" then mongo.All else mongo.Text search.

(** [req.Host + req.URL.String()] after [req.URL.RawQuery] was set to the
    encoding of the query with [page] replaced.  The copy [*r] shares
    the [URL] with [r], so the assignment is seen through [r] too: the
    result is the link and the request's URL as it is afterwards. *)
Definition pageLink (host : string) (u : url.URL) (page : Z) : string * url.URL :=
  let q := url.Set_ (url.Query u) "page" (strconv.Itoa page) in
  let u' := url.setRawQuery u q in
  ((host ++ url.String_ u')%string, u').

(** The variables the cursor loop updates. *)
Record Loop := {
  videos : list Video;
  next : string;
  i : Z;
  requestURL : url.URL;
  loopLog : list string
}.

Definition loopBody (host : string) (page limit : Z) (s : Loop) (d : mongo.Doc)
  : Loop :=
  let '(next', u') :=
    if limit <? i s
    then pageLink host (requestURL s) (GoInt.add page 1)
    else (next s, requestURL s) in
  match mongo.Decode d with
  | None =>
      {| videos := videos s; next := next'; i := i s; requestURL := u';
         loopLog := loopLog s ++ ["Error: failed to decode result"] |}
  | Some v =>
      {| videos := videos s ++ [v]; next := next'; i := GoInt.add (i s) 1;
         requestURL := u'; loopLog := loopLog s |}
  end.

Definition cursorLoop (host : string) (u : url.URL) (page limit : Z)
  (rows : list mongo.Doc) : Loop :=
  fold_left (loopBody host page limit) rows
            {| videos := []; next := ""; i := 1; requestURL := u; loopLog := [] |}.

(** What the handler decides to send: an error through
    [writeHttpResponse], or the envelope through the JSON encoder. *)
Inductive Answer :=
| Refused (e : Error)
| Envelope (response : videosResponseMsg).

Definition answer (st : Store) (w : World) (r : Request) : Answer * World :=
  let keyword := keywordOf r in
  match validateKeyword st w keyword with
  | (Some err, w) => (Refused err, w)
  | (None, w) =>
      let q := url.Query (URL r) in
      let page := pageOf q in
      let limit := limitOf q in
      let w := if maxLimit <? limit then logLine w "Error: limit exceeded" else w in
      let search := url.Get q "search" in
      let findOptions := findOptionsOf page limit in
      let filter := filterOf search in
      let w := called w (FindCall keyword filter findOptions) in
      match Find st keyword filter findOptions with
      | None => (Refused internalError, logLine w "Error: cannot get videos")
      | Some rows =>
          let s := cursorLoop (Host r) (URL r) page limit rows in
          let response :=
            {| Page := page; Limit := limit; Result := videos s;
               Prev := ""; Next := if String.eqb (next s) "" then "" else next s |} in
          let response :=
            if page =? 0 then response
            else {| Page := Page response; Limit := Limit response;
                    Result := Result response;
                    Prev := fst (pageLink (Host r) (requestURL s) (GoInt.sub page 1));
                    Next := Next response |} in
          (Envelope response,
           {| existingCollections := existingCollections w;
              logged := logged w ++ loopLog s;
              calls := calls w |})
      end
  end.

Definition send (a : Answer) : Response :=
  match a with
  | Refused e => writeHttpResponse e
  | Envelope response =>
      {| Status := StatusOK; ContentType := "application/json";
         Content := Json (marshalResponse response) |}
  end.

Definition getVideos (st : Store) (w : World) (r : Request) : Response * World :=
  let '(a, w) := answer st w r in (send a, w).

(** The handler against the Mongo database of [mongo]: [listUp] and
    [findUp] say whether the store answers the respective call. *)
Definition mongoStore (textMatch : string -> Video -> bool) (listUp findUp : bool)
  (db : mongo.Database) : Store :=
  {| ListCollectionNames := mongo.ListCollectionNames listUp db;
     Find := mongo.Find textMatch findUp db |}.

End server.


(** ** The YouTube client, as the worker uses it *)

Module youtube.

Record Thumbnail := { Url : string }.
Record ThumbnailDetails := { Default : option Thumbnail }.
Record SearchResultSnippet := {
  Title : string;
  Description : string;
  PublishedAt : string;
  Thumbnails : option ThumbnailDetails
}.
Record ResourceId := { VideoId : string }.

(** The pointer fields of a result are [option]s: [None] is [nil]. *)
Record SearchResult := {
  Id : option ResourceId;
  Snippet : option SearchResultSnippet
}.
Record SearchListResponse := { Items : list SearchResult }.

(** The call [fetchVideos] builds. *)
Record SearchListCall := {
  Part : list string;
  Q : string;
  Type_ : string;
  PublishedAfter : Z;
  MaxResults : Z
}.

(** [call.Do()] answers with a response and an error, either of which may
    be nil; the generated client returns a nil response with every
    non-nil error. *)
Record Service := {
  Do : SearchListCall -> option SearchListResponse * option string
}.

End youtube.

(** ** The worker *)

Module worker.

Inductive Call :=
| ListCollectionNamesCall
| CreateManyCall (collection : string) (models : list mongo.Index)
| InsertManyCall (collection : string) (documents : list Video) (ordered : bool).

(** The [Service]'s [existingCollections], the database behind
    [s.database], what was logged and the calls made on the store. *)
Record World := {
  existingCollections : list string;
  database : mongo.Database;
  logged : list string;
  calls : list Call
}.

Definition logLine (w : World) (line : string) : World :=
  {| existingCollections := existingCollections w; database := database w;
     logged := logged w ++ [line]; calls := calls w |}.

Definition called (w : World) (c : Call) : World :=
  {| existingCollections := existingCollections w; database := database w;
     logged := logged w; calls := calls w ++ [c] |}.

Definition setExistingCollections (w : World) (l : list string) : World :=
  {| existingCollections := l; database := database w;
     logged := logged w; calls := calls w |}.

Definition setDatabase (w : World) (db : mongo.Database) : World :=
  {| existingCollections := existingCollections w; database := db;
     logged := logged w; calls := calls w |}.

(** Whether the store answers the three calls of one persist. *)
Record Reach := { listUp : bool; indexUp : bool; insertUp : bool }.

Definition allUp : Reach := {| listUp := true; indexUp := true; insertUp := true |}.

Section Fetch.

(** [time.Parse(time.RFC3339, _)]; [None] is a non-nil error. *)
Variable parseRFC3339 : string -> option Z.

(** The body of the loop over [response.Items]; every [nil] pointer on the
    way to a field panics. *)
Definition videoOf (item : youtube.SearchResult) : Exec (Video * list string) :=
  match youtube.Id item with
  | None => Panic nilDereference
  | Some id =>
      match youtube.Snippet item with
      | None => Panic nilDereference
      | Some snippet =>
          match youtube.Thumbnails snippet with
          | None => Panic nilDereference
          | Some thumbnails =>
              match youtube.Default thumbnails with
              | None => Panic nilDereference
              | Some thumbnail =>
                  let v publishedAt :=
                    {| ID := 0%N;
                       YoutubeID := youtube.VideoId id;
                       Title := youtube.Title snippet;
                       Description := youtube.Description snippet;
                       PublishedAt := publishedAt;
                       ThumbnailUrl := youtube.Url thumbnail |} in
                  match parseRFC3339 (youtube.PublishedAt snippet) with
                  | None => Ret (v zeroTime, ["Error: Unable to parse PublishedAt field"])
                  | Some publishedAt => Ret (v publishedAt, [])
                  end
              end
          end
      end
  end.

Fixpoint videosOf (items : list youtube.SearchResult) (videos : list Video)
  (log : list string) : Exec (list Video) * list string :=
  match items with
  | [] => (Ret videos, log)
  | item :: rest =>
      match videoOf item with
      | Panic msg => (Panic msg, log)
      | Ret (v, lines) => videosOf rest (videos ++ [v]) (log ++ lines)
      end
  end.

(** [fetchVideos]: the videos (or the panic) and the lines logged. *)
Definition fetchVideos (youtubeClient : option youtube.Service)
  (searchKey : string) (since : Z) : Exec (list Video) * list string :=
  match youtubeClient with
  | None => (Ret [], ["Error: youtubeClient not initialised"])
  | Some client =>
      let call :=
        {| youtube.Part := ["id"; "snippet"]; youtube.Q := searchKey;
           youtube.Type_ := "video"; youtube.PublishedAfter := since;
           youtube.MaxResults := 50 |} in
      let '(response, err) := youtube.Do client call in
      let log :=
        match err with
        | Some _ => ["Error: Unable to get search results"]
        | None => []
        end in
      match response with
      | None => (Panic nilDereference, log)
      | Some response => videosOf (youtube.Items response) [] log
      end
  end.

End Fetch.

Definition collectionExists (up : Reach) (w : World) (collection : string)
  : bool * World :=
  if keywordExistsIn collection (existingCollections w) then (true, w)
  else
    let w := called w ListCollectionNamesCall in
    match mongo.ListCollectionNames (listUp up) (database w) with
    | None => (false, logLine w "Error: Unable get collections list")
    | Some collections =>
        let w := setExistingCollections w collections in
        (keywordExistsIn collection collections, w)
    end.

Definition theIndexes : list mongo.Index :=
  [mongo.PublishedAtDesc; mongo.TextTitleDescription; mongo.UniqueYoutubeId].

Definition createIndexes (up : Reach) (w : World) (collection : string) : World :=
  let w := called w (CreateManyCall collection theIndexes) in
  match mongo.CreateMany (indexUp up) (database w) collection theIndexes with
  | (_, false) => logLine w "Error: Failed to create indexes"
  | (db, true) => logLine (setDatabase w db) "Successfully created indexes"
  end.

Definition saveVideosToDB (up : Reach) (w : World) (searchKey : string)
  (videos : list Video) : World :=
  let '(collectionPreviouslyExists, w) := collectionExists up w searchKey in
  let w := if negb collectionPreviouslyExists
           then createIndexes up w searchKey else w in
  let w := called w (InsertManyCall searchKey videos false) in
  match mongo.InsertMany (insertUp up) (database w) searchKey videos false with
  | (db, false) => logLine (setDatabase w db) "Error: DB update failed"
  | (db, true) =>
      logLine (setDatabase w db)
        ("Inserted " ++ strconv.Itoa (Z.of_nat (length videos)) ++ " documents to db")
  end.

(** One turn of the loop of [main] at time [now].  The save is started
    with [go]; here it has run to its end before the next turn. *)
Definition pollCycle (parseRFC3339 : string -> option Z)
  (youtubeClient : option youtube.Service) (searchTerm : string)
  (up : Reach) (now : Z) (st : World * Z) : Exec (World * Z) :=
  let '(w, lastFetchedTime) := st in
  match fetchVideos parseRFC3339 youtubeClient searchTerm lastFetchedTime with
  | (Panic msg, _) => Panic msg
  | (Ret videos, lines) =>
      let w := fold_left logLine lines w in
      let numVideos := Z.of_nat (length videos) in
      let w := logLine w ("FETCHED: " ++ strconv.Itoa numVideos) in
      let w := if numVideos =? 0 then w else saveVideosToDB up w searchTerm videos in
      Ret (w, now)
  end.

(** The loop, for as many turns as there are entries in [turns]: the
    client that answers, whether the store does, and the time after the
    fetch.  A panic ends the process. *)
Fixpoint pollLoop (parseRFC3339 : string -> option Z) (searchTerm : string)
  (turns : list (option youtube.Service * Reach * Z)) (st : World * Z)
  : Exec (World * Z) :=
  match turns with
  | [] => Ret st
  | (client, up, now) :: rest =>
      match pollCycle parseRFC3339 client searchTerm up now st with
      | Panic msg => Panic msg
      | Ret st' => pollLoop parseRFC3339 searchTerm rest st'
      end
  end.

(** How often index creation was run. *)
Definition isCreateMany (c : Call) : bool :=
  match c with
  | CreateManyCall _ _ => true
  | _ => false
  end.

Definition indexCreations (cs : list Call) : nat :=
  length (List.filter isCreateMany cs).

(** A run of persists for one search term, one after the other: for each,
    whether the store answers and the batch. *)
Definition saveAll (w : World) (searchKey : string)
  (batches : list (Reach * list Video)) : World :=
  fold_left (fun w b => saveVideosToDB (fst b) w searchKey (snd b)) batches w.

End worker.


(** ** Serving several requests in a row *)

(** The result lists of the requests [rs], served one after the other on
    the same store, concatenated; a refused request contributes nothing. *)
Fixpoint resultsOf (st : server.Store) (w : server.World) (rs : list server.Request)
  : list Video :=
  match rs with
  | [] => []
  | r :: rest =>
      match server.answer st w r with
      | (server.Envelope m, w') => server.Result m ++ resultsOf st w' rest
      | (server.Refused _, w') => resultsOf st w' rest
      end
  end.


(** What the envelope of [r] is made of, once the keyword was accepted and
    the store answered with [rows]: a summary of [server.answer], proved
    equal to it in [answer_accepted]. *)
Definition envelopeOf (r : server.Request) (rows : list mongo.Doc)
  : server.videosResponseMsg :=
  let q := url.Query (server.URL r) in
  let page := server.pageOf q in
  let limit := server.limitOf q in
  {| server.Page := page;
     server.Limit := limit;
     server.Result := omap mongo.Decode rows;
     server.Prev :=
       if page =? 0 then ""%string
       else fst (server.pageLink (server.Host r) (server.URL r) (GoInt.sub page 1));
     server.Next :=
       server.next (server.cursorLoop (server.Host r) (server.URL r) page limit rows) |}.

(** ** Concrete stores, requests and clients *)

Module scene.

Definition video (youtubeId : string) (publishedAt : Z) : Video :=
  {| ID := 0; YoutubeID := youtubeId; Title := youtubeId; Description := "";
     PublishedAt := publishedAt; ThumbnailUrl := "" |}.

Definition indexed (ds : list mongo.Doc) : mongo.Collection :=
  {| mongo.docs := ds; mongo.indexes := worker.theIndexes;
     mongo.nextId := N.of_nat (length ds) + 1 |}.

Definition a : mongo.Doc := mongo.stored (video "a" 30) 1.
Definition b : mongo.Doc := mongo.stored (video "b" 20) 2.
Definition c : mongo.Doc := mongo.stored (video "c" 10) 3.

(** A document whose fields do not decode into a [Video]. *)
Definition broken : mongo.Doc :=
  {| mongo.fields := mongo.fields (mongo.stored (video "x" 40) 4);
     mongo.decodes := false |}.

Definition music (ds : list mongo.Doc) : mongo.Database :=
  {[ "music"%string := indexed ds ]}.

Definition anyText (search : string) (v : Video) : bool := true.

(** The store answering every call. *)
Definition store (db : mongo.Database) : server.Store :=
  server.mongoStore anyText true true db.

Definition idle : server.World :=
  {| server.existingCollections := []; server.logged := []; server.calls := [] |}.

(** [GET localhost:8080/videos/<keyword>?<query>]. *)
Definition get (keyword : string) (query : list (string * string)) : server.Request :=
  {| server.Host := "localhost:8080";
     server.URL :=
       {| url.Path := "/videos/" ++ keyword;
          url.EscapedPath := "/videos/" ++ keyword;
          url.RawQuery :=
            fold_left (fun q kv => url.Set_ q (fst kv) (snd kv)) query ∅ |} |}.

Definition fresh : worker.World :=
  {| worker.existingCollections := []; worker.database := ∅;
     worker.logged := []; worker.calls := [] |}.

(** A worker that has seen the collection ["music"] holding [ds]. *)
Definition collecting (ds : list mongo.Doc) : worker.World :=
  {| worker.existingCollections := ["music"%string]; worker.database := music ds;
     worker.logged := []; worker.calls := [] |}.

(** A client whose every call fails, as the generated client reports it:
    no response and an error. *)
Definition failingClient : youtube.Service :=
  {| youtube.Do := fun _ => (None, Some "googleapi: Error 403: quotaExceeded"%string) |}.

Definition listingDown : worker.Reach :=
  {| worker.listUp := false; worker.indexUp := true; worker.insertUp := true |}.

End scene.

(** ** Start-up *)

(** What [main] does before it connects: it reads [os.Args] and the
    environment ([os.Getenv] answers the empty string for a variable that
    is not set) and either gives up through [log.Fatal] or goes on with
    its settings. *)
Module startup.

Inductive Outcome (A : Type) : Type :=
| Fatal (msg : string)
| Started (settings : A) (log : list string).
Arguments Fatal {A} msg.
Arguments Started {A} settings log.

Definition defaultMongoURI : string := "mongodb://0.0.0.0:27017".

Record Worker := {
  searchTerm : string;
  apiKey : string;
  workerMongoURI : string;
  workerMongoDbName : string;
  pollInterval : Z
}.

(** The worker's [main] up to the call of [New].  Indexing [os.Args]
    beyond its length panics. *)
Definition worker (args : list string) (getenv : string -> string)
  : Exec (Outcome Worker) :=
  if (length args =? 1)%nat then Ret (Fatal "Missing search term, send as argument")
  else
    match nth_error args 1 with
    | None => Panic "runtime error: index out of range [1] with length 0"
    | Some term =>
        let key := getenv "API_KEY" in
        if String.eqb key "" then Ret (Fatal "Missing API_KEY")
        else
          let uri := getenv "MONGO_URI" in
          let uri := if String.eqb uri "" then defaultMongoURI else uri in
          let name := getenv "MONGO_DB" in
          if String.eqb name "" then Ret (Fatal "MONGO_DB missing")
          else
            let '(interval, log) :=
              match strconv.Atoi (getenv "POLL_INTERVAL") with
              | Some n => (n, [])
              | None =>
                  (10, ["Unable to set polling interval. Defaulting to 10 seconds"%string])
              end in
            Ret (Started {| searchTerm := term; apiKey := key; workerMongoURI := uri;
                            workerMongoDbName := name; pollInterval := interval |}
                         log)
    end.

Record Server := { serverMongoURI : string; serverMongoDbName : string }.

(** The server's [main] up to [setupDatabaseConnection]. *)
Definition server (getenv : string -> string) : Outcome Server :=
  let uri := getenv "MONGO_URI" in
  let uri := if String.eqb uri "" then defaultMongoURI else uri in
  let name := getenv "MONGO_DB" in
  if String.eqb name "" then Fatal "MONGO_DB missing"
  else Started {| serverMongoURI := uri; serverMongoDbName := name |} [].

End startup.

(** ** Search results that can be read *)

(** A result all of whose pointers on the way to the fields [fetchVideos]
    reads are set. *)
Definition complete (item : youtube.SearchResult) : bool :=
  match youtube.Id item, youtube.Snippet item with
  | Some _, Some snippet =>
      match youtube.Thumbnails snippet with
      | Some thumbnails =>
          match youtube.Default thumbnails with
          | Some _ => true
          | None => false
          end
      | None => false
      end
  | _, _ => false
  end.

(** The call [fetchVideos] makes for [searchKey] and [since]. *)
Definition searchCall (searchKey : string) (since : Z) : youtube.SearchListCall :=
  {| youtube.Part := ["id"; "snippet"]; youtube.Q := searchKey;
     youtube.Type_ := "video"; youtube.PublishedAfter := since;
     youtube.MaxResults := 50 |}.

(** More concrete data. *)
Module sample.

(** An environment given as a list of settings. *)
Definition env (vars : list (string * string)) (name : string) : string :=
  match List.find (fun kv => String.eqb (fst kv) name) vars with
  | Some kv => snd kv
  | None => ""
  end.

Definition item (id title publishedAt : string) : youtube.SearchResult :=
  {| youtube.Id := Some {| youtube.VideoId := id |};
     youtube.Snippet :=
       Some {| youtube.Title := title; youtube.Description := "";
               youtube.PublishedAt := publishedAt;
               youtube.Thumbnails :=
                 Some {| youtube.Default := Some {| youtube.Url := "t.jpg" |} |} |} |}.

(** A result that carries no thumbnails. *)
Definition bare (id : string) : youtube.SearchResult :=
  {| youtube.Id := Some {| youtube.VideoId := id |};
     youtube.Snippet :=
       Some {| youtube.Title := id; youtube.Description := "";
               youtube.PublishedAt := "";
               youtube.Thumbnails := None |} |}.

Definition answering (items : list youtube.SearchResult) : youtube.Service :=
  {| youtube.Do := fun _ => (Some {| youtube.Items := items |}, None) |}.

(** Instants written as decimal numbers stand in for RFC 3339. *)
Definition parse (s : string) : option Z := strconv.Atoi s.

End sample.

(** * Properties *)

(** ** The library models on a few inputs *)

Example Atoi_examples :
  strconv.Atoi "12" = Some 12 /\ strconv.Atoi "-3" = Some (-3) /\
  strconv.Atoi "+07" = Some 7 /\ strconv.Atoi "" = None /\
  strconv.Atoi "-" = None /\ strconv.Atoi "1x" = None /\
  strconv.Atoi "9223372036854775808" = None /\
  strconv.Atoi "-9223372036854775808" = Some GoInt.minInt.
Proof. vm_compute. repeat split. Qed.

Example Itoa_examples :
  strconv.Itoa 0 = "0"%string /\ strconv.Itoa 15 = "15"%string /\
  strconv.Itoa (-2) = "-2"%string.
Proof. vm_compute. repeat split. Qed.

Example Encode_example :
  url.Encode (url.Set_ (url.Set_ (url.Set_ ∅ "page" "1") "limit" "5") "search" "a b&c")
  = "limit=5&page=1&search=a+b%26c"%string.
Proof. vm_compute. reflexivity. Qed.

(** ** The result list and the probe document *)

(** C1.  The handler appends every decoded row to the result list, the
    probe row included: with two documents stored and [limit=1] the
    envelope carries both of them, one more than [limit]. *)
Theorem getVideos_returns_probe_document :
  exists m w,
    server.answer (scene.store (scene.music [scene.a; scene.b])) scene.idle
                  (scene.get "music" [("limit", "1")]) = (server.Envelope m, w)
    /\ server.Limit m = 1
    /\ map YoutubeID (server.Result m) = ["a"; "b"]%string
    /\ Z.of_nat (length (server.Result m)) = server.Limit m + 1.
Proof.
  eexists _, _. split; [vm_compute; reflexivity|].
  vm_compute. repeat split.
Qed.

(** C2.  When the search call fails, [fetchVideos] logs the error and then
    reads [response.Items] through the nil response: it panics, and the
    panic ends the poll loop at that turn, whatever came before. *)
Theorem fetchVideos_panics_on_api_failure :
  forall parse searchKey since,
    worker.fetchVideos parse (Some scene.failingClient) searchKey since
    = (Panic nilDereference, ["Error: Unable to get search results"%string])
    /\ forall up now st turns,
        worker.pollLoop parse searchKey
          ((Some scene.failingClient, up, now) :: turns) st
        = Panic nilDereference.
Proof.
  intros parse searchKey since. split; [reflexivity|].
  intros up now [w t] turns. reflexivity.
Qed.

(** C3.  Pages 0, 1 and 2 of a three-document collection with [limit=1],
    concatenated: the probe row of each page comes back as the first row
    of the next, so [b] and [c] appear twice. *)
Theorem concatenated_pages_repeat_documents :
  map YoutubeID
    (resultsOf (scene.store (scene.music [scene.a; scene.b; scene.c])) scene.idle
       [scene.get "music" [("limit", "1"); ("page", "0")];
        scene.get "music" [("limit", "1"); ("page", "1")];
        scene.get "music" [("limit", "1"); ("page", "2")]])
  = ["a"; "b"; "b"; "c"; "c"]%string.
Proof. vm_compute. reflexivity. Qed.

(** ** Helper lemmas *)

Section Helpers.

Lemma keywordExistsIn_In (keyword : string) (l : list string) :
  keywordExistsIn keyword l = true <-> In keyword l.
Proof.
  induction l as [|c rest IH]; simpl.
  - split; [discriminate|tauto].
  - destruct (String.eqb c keyword) eqn:E.
    + apply String.eqb_eq in E. tauto.
    + apply String.eqb_neq in E. rewrite IH. split; [tauto|].
      intros [H|H]; [congruence|exact H].
Qed.

Lemma keywordExistsIn_false (keyword : string) (l : list string) :
  keywordExistsIn keyword l = false <-> ~ In keyword l.
Proof.
  rewrite <- keywordExistsIn_In. destruct (keywordExistsIn keyword l); split; congruence.
Qed.

Lemma names_lookup (db : mongo.Database) (name : string) :
  In name (map fst (map_to_list db)) <-> is_Some (db !! name).
Proof.
  rewrite in_map_iff. split.
  - intros [[k c] [Hk Hin]]. simpl in Hk. subst k.
    apply list_elem_of_In, elem_of_map_to_list in Hin. eauto.
  - intros [c Hc]. exists (name, c). split; [reflexivity|].
    apply list_elem_of_In, elem_of_map_to_list. exact Hc.
Qed.

Lemma wrap_small (z : Z) :
  GoInt.minInt <= z <= GoInt.maxInt -> GoInt.wrap z = z.
Proof.
  unfold GoInt.wrap, GoInt.minInt, GoInt.maxInt. intros H.
  rewrite Z.mod_small; lia.
Qed.

Lemma append_nonempty (s t : string) : t <> ""%string -> (s ++ t)%string <> ""%string.
Proof.
  intros Ht. destruct s as [|c s]; simpl; [exact Ht|discriminate].
Qed.

Lemma append_assoc (s t v : string) : ((s ++ t) ++ v = s ++ (t ++ v))%string.
Proof.
  induction s as [|c s IH]; [reflexivity|].
  change (String c ((s ++ t) ++ v) = String c (s ++ (t ++ v)))%string.
  f_equal. exact IH.
Qed.

Lemma pageLink_nonempty (host : string) (u : url.URL) (page : Z) :
  fst (server.pageLink host u page) <> ""%string.
Proof.
  unfold server.pageLink, url.String_. simpl.
  apply append_nonempty, append_nonempty. discriminate.
Qed.

(** Setting [page] on a URL whose [page] was set before forgets the
    earlier value: the prev link does not depend on whether the next link
    was built first. *)
Lemma pageLink_again (host : string) (u : url.URL) (p p' : Z) :
  server.pageLink host (snd (server.pageLink host u p)) p'
  = server.pageLink host u p'.
Proof.
  unfold server.pageLink, url.setRawQuery, url.Query, url.Set_. simpl.
  rewrite insert_insert_eq. reflexivity.
Qed.

Lemma Get_Set_same (q : url.Values) (key value : string) :
  url.Get (url.Set_ q key value) key = value.
Proof. unfold url.Get, url.Set_. rewrite lookup_insert_eq. reflexivity. Qed.

Lemma Get_Set_other (q : url.Values) (key key' value : string) :
  key <> key' -> url.Get (url.Set_ q key value) key' = url.Get q key'.
Proof.
  intros H. unfold url.Get, url.Set_. rewrite lookup_insert_ne by exact H.
  reflexivity.
Qed.

End Helpers.

(** ** The cursor loop *)

Section CursorLoop.

Variables (host : string) (u : url.URL) (page limit : Z).

Let run (rows : list mongo.Doc) : server.Loop :=
  server.cursorLoop host u page limit rows.

Let link : string := fst (server.pageLink host u (GoInt.add page 1)).
Let u' : url.URL := snd (server.pageLink host u (GoInt.add page 1)).

Lemma cursorLoop_snoc (rows : list mongo.Doc) (d : mongo.Doc) :
  run (rows ++ [d]) = server.loopBody host page limit (run rows) d.
Proof. unfold run, server.cursorLoop. rewrite fold_left_app. reflexivity. Qed.

(** Every row that decodes is appended, whatever [i] and [limit] are. *)
Lemma cursorLoop_videos (rows : list mongo.Doc) :
  server.videos (run rows) = omap mongo.Decode rows.
Proof.
  induction rows as [|d rows IH] using rev_ind; [reflexivity|].
  rewrite cursorLoop_snoc, omap_app. unfold server.loopBody.
  destruct (if limit <? server.i (run rows) then _ else _) as [n v].
  simpl. destruct (mongo.Decode d); simpl; rewrite IH.
  - reflexivity.
  - rewrite app_nil_r. reflexivity.
Qed.

(** The link and the request's URL change together, and only to the
    next-page link. *)
Lemma cursorLoop_link (rows : list mongo.Doc) :
  (server.next (run rows) = ""%string /\ server.requestURL (run rows) = u)
  \/ (server.next (run rows) = link /\ server.requestURL (run rows) = u').
Proof.
  induction rows as [|d rows IH] using rev_ind; [left; split; reflexivity|].
  rewrite cursorLoop_snoc. unfold server.loopBody.
  destruct (limit <? server.i (run rows)).
  - right.
    assert (server.pageLink host (server.requestURL (run rows)) (GoInt.add page 1)
            = (link, u')) as ->.
    { destruct IH as [[_ ->]|[_ ->]].
      - unfold link, u'. apply surjective_pairing.
      - unfold u'. rewrite pageLink_again. unfold link. apply surjective_pairing. }
    destruct (mongo.Decode d); split; reflexivity.
  - destruct (mongo.Decode d); simpl; exact IH.
Qed.

Lemma cursorLoop_relink (rows : list mongo.Doc) :
  server.pageLink host (server.requestURL (run rows)) (GoInt.add page 1) = (link, u').
Proof.
  destruct (cursorLoop_link rows) as [[_ ->]|[_ ->]].
  - unfold link, u'. apply surjective_pairing.
  - unfold u'. rewrite pageLink_again. unfold link. apply surjective_pairing.
Qed.

Lemma wrap_bounds (z : Z) :
  GoInt.minInt <= z -> GoInt.minInt <= GoInt.wrap z <= z.
Proof.
  unfold GoInt.wrap, GoInt.minInt. intros H.
  pose proof (Z.mod_pos_bound (z + 2 ^ 63) (2 ^ 64) ltac:(lia)).
  pose proof (Z.mod_le (z + 2 ^ 63) (2 ^ 64) ltac:(lia) ltac:(lia)).
  lia.
Qed.

(** [i] never runs ahead of the rows read, so no link is made while no
    more than [limit] rows were read. *)
Lemma cursorLoop_few_rows (rows : list mongo.Doc) :
  GoInt.minInt <= server.i (run rows) <= 1 + Z.of_nat (length rows)
  /\ (Z.of_nat (length rows) <= limit ->
      server.next (run rows) = ""%string /\ server.requestURL (run rows) = u).
Proof.
  induction rows as [|d rows IH] using rev_ind.
  - simpl. unfold GoInt.minInt. repeat split; lia.
  - destruct IH as [Hi Hnext].
    rewrite cursorLoop_snoc, length_app. simpl length. unfold server.loopBody.
    split.
    + destruct (if limit <? server.i (run rows) then _ else _) as [n v].
      destruct (mongo.Decode d); simpl; [|lia].
      pose proof (wrap_bounds (server.i (run rows) + 1) ltac:(lia)).
      unfold GoInt.add. lia.
    + intros Hlen. destruct (Z.ltb_spec limit (server.i (run rows))); [lia|].
      destruct (mongo.Decode d); simpl; apply Hnext; lia.
Qed.

(** With every row decoding, [i] is one more than the number of rows read,
    and the link is made exactly when a row comes after [limit] rows. *)
Lemma cursorLoop_decoding (rows : list mongo.Doc) :
  Forall (fun d => mongo.decodes d = true) rows ->
  Z.of_nat (length rows) <= GoInt.maxInt ->
  (Z.of_nat (length rows) < GoInt.maxInt ->
   server.i (run rows) = 1 + Z.of_nat (length rows))
  /\ server.next (run rows)
     = if (limit <? Z.of_nat (length rows)) && (0 <? Z.of_nat (length rows))
       then link else ""%string.
Proof.
  induction rows as [|d rows IH] using rev_ind.
  - intros _ _. split; [reflexivity|]. simpl. rewrite andb_false_r. reflexivity.
  - rewrite Forall_app, length_app. simpl length. intros [Hrows Hd] Hlen.
    apply Forall_inv in Hd.
    destruct (IH Hrows ltac:(lia)) as [Hi Hnext].
    specialize (Hi ltac:(lia)).
    rewrite cursorLoop_snoc. unfold server.loopBody, mongo.Decode.
    rewrite Hd, Hi. split.
    + intros Hlt.
      destruct (if limit <? 1 + Z.of_nat (length rows) then _ else _) as [n v].
      simpl. unfold GoInt.add. rewrite wrap_small; unfold GoInt.minInt; lia.
    + replace (Z.of_nat (length rows + 1)) with (1 + Z.of_nat (length rows)) by lia.
      replace (0 <? 1 + Z.of_nat (length rows)) with true
        by (symmetry; apply Z.ltb_lt; lia).
      rewrite andb_true_r.
      destruct (Z.ltb_spec limit (1 + Z.of_nat (length rows))) as [Hlt|Hge].
      * rewrite cursorLoop_relink. reflexivity.
      * simpl. rewrite Hnext.
        replace (limit <? Z.of_nat (length rows)) with false
          by (symmetry; apply Z.ltb_ge; lia).
        reflexivity.
Qed.

End CursorLoop.

(** ** The envelope of a successful request *)

Section Envelope.

Variables (st : server.Store) (w : server.World) (r : server.Request).

Let q : url.Values := url.Query (server.URL r).
Let keyword : string := server.keywordOf r.
Let page : Z := server.pageOf q.
Let limit : Z := server.limitOf q.
Let findOptions : mongo.FindOptions := server.findOptionsOf page limit.
Let filter : mongo.Filter := server.filterOf (url.Get q "search").

Lemma answer_accepted (w1 : server.World) (rows : list mongo.Doc) :
  server.validateKeyword st w keyword = (None, w1) ->
  server.Find st keyword filter findOptions = Some rows ->
  fst (server.answer st w r) = server.Envelope (envelopeOf r rows).
Proof.
  intros Hv Hf. unfold server.answer.
  fold keyword. rewrite Hv. fold q page limit filter findOptions. rewrite Hf.
  unfold envelopeOf. fold q page limit. cbn [fst]. f_equal.
  rewrite cursorLoop_videos.
  set (s := server.cursorLoop _ _ _ _ _).
  assert (server.pageLink (server.Host r) (server.requestURL s) (GoInt.sub page 1)
          = server.pageLink (server.Host r) (server.URL r) (GoInt.sub page 1)) as Hprev.
  { destruct (cursorLoop_link (server.Host r) (server.URL r) page limit rows)
      as [[_ Hu]|[_ Hu]]; subst s; rewrite Hu; [reflexivity|apply pageLink_again]. }
  assert ((if String.eqb (server.next s) "" then ""%string else server.next s)
          = server.next s) as Hnext.
  { destruct (String.eqb_spec (server.next s) ""); congruence. }
  destruct (page =? 0);
    cbn [server.Page server.Limit server.Result server.Prev server.Next];
    rewrite Hnext, ?Hprev; reflexivity.
Qed.

Lemma answer_envelope (m : server.videosResponseMsg) (w' : server.World) :
  server.answer st w r = (server.Envelope m, w') ->
  exists w1 rows,
    server.validateKeyword st w keyword = (None, w1)
    /\ server.Find st keyword filter findOptions = Some rows
    /\ m = envelopeOf r rows.
Proof.
  intros H.
  destruct (server.validateKeyword st w keyword) as [[e|] w1] eqn:Hv.
  - unfold server.answer in H. fold keyword in H. rewrite Hv in H. discriminate.
  - destruct (server.Find st keyword filter findOptions) as [rows|] eqn:Hf.
    + exists w1, rows. repeat split.
      pose proof (answer_accepted w1 rows Hv Hf) as Ha.
      rewrite H in Ha. simpl in Ha. congruence.
    + unfold server.answer in H. fold keyword in H. rewrite Hv in H.
      fold q page limit filter findOptions in H. rewrite Hf in H. discriminate.
Qed.

End Envelope.

(** ** What [Find] returns *)

Section FindRows.

Variable textMatch : string -> Video -> bool.

Lemma length_insertDesc (d : mongo.Doc) (l : list mongo.Doc) :
  length (mongo.insertDesc d l) = S (length l).
Proof.
  induction l as [|x l IH]; simpl; [reflexivity|].
  destruct (_ <? _); simpl; [reflexivity|]. rewrite IH. reflexivity.
Qed.

Lemma length_sortDesc (l : list mongo.Doc) :
  length (mongo.sortDesc l) = length l.
Proof.
  induction l as [|x l IH]; [reflexivity|].
  change (mongo.sortDesc (x :: l)) with (mongo.insertDesc x (mongo.sortDesc l)).
  rewrite length_insertDesc, IH. reflexivity.
Qed.

Lemma Forall_insertDesc (P : mongo.Doc -> Prop) (d : mongo.Doc) (l : list mongo.Doc) :
  P d -> Forall P l -> Forall P (mongo.insertDesc d l).
Proof.
  intros Hd. induction 1 as [|x l Hx Hl IH]; simpl.
  - constructor; [exact Hd|constructor].
  - destruct (_ <? _); repeat (constructor; try assumption).
Qed.

Lemma Forall_sortDesc (P : mongo.Doc -> Prop) (l : list mongo.Doc) :
  Forall P l -> Forall P (mongo.sortDesc l).
Proof.
  induction 1 as [|x l Hx Hl IH]; [constructor|].
  change (mongo.sortDesc (x :: l)) with (mongo.insertDesc x (mongo.sortDesc l)).
  apply Forall_insertDesc; assumption.
Qed.

Lemma Forall_matching (P : mongo.Doc -> Prop) (f : mongo.Filter) (c : mongo.Collection) :
  Forall P (mongo.docs c) -> Forall P (mongo.matching textMatch f c).
Proof.
  intros H. destruct f as [|s]; simpl; [exact H|].
  rewrite List.Forall_forall in *. intros d Hd. apply H.
  apply list_elem_of_In. apply (proj2 (list_elem_of_In _ _)) in Hd.
  apply list_elem_of_filter in Hd. tauto.
Qed.

(** A successful [Find] was given a [skip] that is not negative, and
    answers with the matching documents of the collection, sorted, without
    the first [skip] of them and cut at the limit. *)
Lemma Find_Some (up : bool) (db : mongo.Database) (name : string)
  (f : mongo.Filter) (o : mongo.FindOptions) (rows : list mongo.Doc) :
  mongo.Find textMatch up db name f o = Some rows ->
  0 <= mongo.Skip o
  /\ rows = mongo.applyLimit (mongo.Limit o)
              (drop (Z.to_nat (mongo.Skip o))
                    (mongo.sortDesc (mongo.matching textMatch f (mongo.view db name)))).
Proof.
  unfold mongo.Find, mongo.view. destruct up; simpl; [|discriminate].
  destruct (Z.ltb_spec (mongo.Skip o) 0) as [Hneg|Hskip]; [discriminate|].
  intros H. split; [lia|].
  destruct (db !! name) as [c|]; simpl.
  - destruct f as [|s]; [congruence|].
    destruct (mongo.hasIndex _ _); congruence.
  - injection H as <-. destruct f; simpl; rewrite drop_nil;
      unfold mongo.applyLimit; destruct (_ =? 0); rewrite ?take_nil; reflexivity.
Qed.

Lemma length_applyLimit_positive (n : Z) (l : list mongo.Doc) :
  0 < n -> length (mongo.applyLimit n l) = Nat.min (Z.to_nat n) (length l).
Proof.
  intros H. unfold mongo.applyLimit.
  destruct (Z.eqb_spec n 0); [lia|].
  rewrite length_take. f_equal. lia.
Qed.

End FindRows.

(** ** The next link *)

Lemma next_iff_rows (host : string) (u : url.URL) (page limit : Z)
  (rows : list mongo.Doc) :
  Forall (fun d => mongo.decodes d = true) rows ->
  Z.of_nat (length rows) <= GoInt.maxInt ->
  0 <= limit ->
  server.next (server.cursorLoop host u page limit rows) <> ""%string
  <-> limit < Z.of_nat (length rows).
Proof.
  intros Hdec Hlen Hlimit.
  destruct (cursorLoop_decoding host u page limit rows Hdec Hlen) as [_ ->].
  destruct (Z.ltb_spec limit (Z.of_nat (length rows))) as [Hlt|Hge]; simpl.
  - replace (0 <? Z.of_nat (length rows)) with true
      by (symmetry; apply Z.ltb_lt; lia).
    split; [intros _; exact Hlt|intros _; apply pageLink_nonempty].
  - split; [congruence|lia].
Qed.

Lemma Forall_applyLimit (P : mongo.Doc -> Prop) (n : Z) (l : list mongo.Doc) :
  Forall P l -> Forall P (mongo.applyLimit n l).
Proof.
  intros H. unfold mongo.applyLimit. destruct (n =? 0); [exact H|].
  apply Forall_take, H.
Qed.

(** C4, the counterexample.  [GET /videos/music?limit=-1] on a collection
    that exists and holds no document: the store returns no row, the loop
    body never runs and no next link is made, although the collection
    holds more than [(page+1)*limit = -1] documents and the store returned
    more than [limit = -1] of them. *)
Lemma next_link_absent_for_negative_limit :
  let st := scene.store (scene.music []) in
  let r := scene.get "music" [("limit", "-1")] in
  exists m w rows,
    server.answer st scene.idle r = (server.Envelope m, w)
    /\ server.Find st "music" mongo.All
         (server.findOptionsOf (server.Page m) (server.Limit m)) = Some rows
    /\ ~ (server.Next m <> ""%string
          <-> (server.Page m + 1) * server.Limit m
              < Z.of_nat (length (mongo.docs (mongo.view (scene.music []) "music"))))
    /\ ~ (server.Next m <> ""%string
          <-> server.Limit m < Z.of_nat (length rows)).
Proof.
  eexists _, _, _. split; [vm_compute; reflexivity|].
  split; [vm_compute; reflexivity|].
  split; vm_compute; intros [_ H]; apply H; reflexivity.
Qed.

(** C4, as the code has it.  For a request the database answers, with
    [page] and [limit] not negative, [(page+1)*limit] within [int] and
    every document of the collection decoding: the envelope carries a
    next link exactly when the collection holds more than
    [(page+1)*limit] matching documents, which is exactly when the store
    returned more than [limit] rows; the link is the host and the request
    URL with [page] set to [page+1]. *)
Theorem next_link_iff_more_documents
  (textMatch : string -> Video -> bool) (listUp findUp : bool)
  (db : mongo.Database) (w w' : server.World) (r : server.Request)
  (m : server.videosResponseMsg) :
  let st := server.mongoStore textMatch listUp findUp db in
  let q := url.Query (server.URL r) in
  let keyword := server.keywordOf r in
  let filter := server.filterOf (url.Get q "search") in
  server.answer st w r = (server.Envelope m, w') ->
  0 <= server.Page m ->
  0 <= server.Limit m ->
  (server.Page m + 1) * server.Limit m < GoInt.maxInt ->
  Forall (fun d => mongo.decodes d = true) (mongo.docs (mongo.view db keyword)) ->
  (server.Next m <> ""%string
   <-> (server.Page m + 1) * server.Limit m
       < Z.of_nat (length (mongo.matching textMatch filter (mongo.view db keyword))))
  /\ (exists rows,
        server.Find st keyword filter
          (server.findOptionsOf (server.Page m) (server.Limit m)) = Some rows
        /\ (server.Next m <> ""%string <-> server.Limit m < Z.of_nat (length rows)))
  /\ (server.Next m <> ""%string ->
      server.Next m
      = (server.Host r
         ++ url.String_
              (url.setRawQuery (server.URL r)
                 (url.Set_ q "page" (strconv.Itoa (GoInt.add (server.Page m) 1)))))%string).
Proof.
  intros st q keyword filter Ha.
  apply answer_envelope in Ha as (w1 & rows & _ & Hf & ->).
  unfold envelopeOf. cbn [server.Page server.Limit server.Next].
  fold q keyword filter in Hf |- *.
  set (page := server.pageOf q) in *. set (limit := server.limitOf q) in *.
  intros Hpage Hlimit Hbound Hdec.
  pose proof Hf as Hrows. apply Find_Some in Hrows as [_ Hrows].
  unfold server.findOptionsOf in Hrows. cbn [mongo.Skip mongo.Limit] in Hrows.
  assert (GoInt.mul page limit = page * limit) as Hskip
    by (apply wrap_small; unfold GoInt.minInt; nia).
  assert (GoInt.add limit 1 = limit + 1) as Hlim
    by (apply wrap_small; unfold GoInt.minInt; nia).
  assert (Forall (fun d => mongo.decodes d = true) rows) as Hrowsdec.
  { rewrite Hrows. apply Forall_applyLimit, Forall_drop, Forall_sortDesc,
      Forall_matching, Hdec. }
  assert (length rows
          = Nat.min (Z.to_nat (limit + 1))
              (length (mongo.matching textMatch filter (mongo.view db keyword))
               - Z.to_nat (page * limit))) as Hlen.
  { rewrite Hrows, Hlim, Hskip, length_applyLimit_positive by lia.
    rewrite length_drop, length_sortDesc. reflexivity. }
  assert (server.next (server.cursorLoop (server.Host r) (server.URL r) page limit rows)
          <> ""%string <-> limit < Z.of_nat (length rows)) as Hiff.
  { apply next_iff_rows; [exact Hrowsdec| |exact Hlimit].
    unfold GoInt.maxInt in *. nia. }
  split; [|split].
  - rewrite Hiff, Hlen. nia.
  - exists rows. split; [exact Hf|exact Hiff].
  - intros Hne.
    destruct (cursorLoop_link (server.Host r) (server.URL r) page limit rows)
      as [[Hnone _]|[Hlink _]]; [contradiction|].
    rewrite Hlink. reflexivity.
Qed.

(** Page 1 of three documents with [limit=1]: two more than
    [(1+1)*1], and the link carries [page=2]. *)
Lemma next_link_iff_more_documents_witness :
  exists m w',
    server.answer (scene.store (scene.music [scene.a; scene.b; scene.c])) scene.idle
      (scene.get "music" [("limit", "1"); ("page", "1")]) = (server.Envelope m, w')
    /\ server.Next m = "localhost:8080/videos/music?limit=1&page=2"%string
    /\ (server.Next m <> ""%string
        <-> (server.Page m + 1) * server.Limit m
            < Z.of_nat (length (mongo.matching scene.anyText mongo.All
                                  (mongo.view (scene.music [scene.a; scene.b; scene.c])
                                              "music")))).
Proof.
  eexists _, _. split; [vm_compute; reflexivity|].
  split; [vm_compute; reflexivity|].
  eapply (next_link_iff_more_documents scene.anyText true true
            (scene.music [scene.a; scene.b; scene.c]) scene.idle _
            (scene.get "music" [("limit", "1"); ("page", "1")])).
  - vm_compute. reflexivity.
  - vm_compute. discriminate.
  - vm_compute. discriminate.
  - vm_compute. reflexivity.
  - vm_compute. repeat constructor.
Defined.

(** A row that does not decode is skipped without [i] being counted up:
    of the two rows returned for [limit=1], the first does not decode, so
    [i] is still 1 at the second and no next link is made. *)
Example next_link_absent_after_undecodable_row :
  let st := scene.store (scene.music [scene.broken; scene.a]) in
  exists m w rows,
    server.answer st scene.idle (scene.get "music" [("limit", "1")])
    = (server.Envelope m, w)
    /\ server.Find st "music" mongo.All
         (server.findOptionsOf (server.Page m) (server.Limit m)) = Some rows
    /\ length rows = 2%nat
    /\ server.Limit m = 1
    /\ map YoutubeID (server.Result m) = ["a"%string]
    /\ server.Next m = ""%string
    /\ server.logged w = ["Error: failed to decode result"%string].
Proof.
  eexists _, _, _. split; [vm_compute; reflexivity|].
  split; [vm_compute; reflexivity|]. vm_compute. repeat split.
Qed.

(** ** Unknown keywords and store failures *)

Lemma validateKeyword_miss (st : server.Store) (w : server.World) (keyword : string) :
  keywordExistsIn keyword (server.existingCollections w) = false ->
  fst (server.validateKeyword st w keyword)
  = match server.ListCollectionNames st with
    | None => Some server.internalError
    | Some collections =>
        if keywordExistsIn keyword collections then None
        else Some {| server.Code := server.StatusBadRequest;
                     server.Message := server.notCollected keyword |}
    end.
Proof.
  intros Hmiss. unfold server.validateKeyword. rewrite Hmiss.
  destruct (server.ListCollectionNames st) as [collections|]; [|reflexivity].
  simpl. destruct (keywordExistsIn keyword collections); reflexivity.
Qed.

Lemma getVideos_refused (st : server.Store) (w : server.World) (r : server.Request)
  (e : server.Error) :
  fst (server.validateKeyword st w (server.keywordOf r)) = Some e ->
  fst (server.getVideos st w r) = server.writeHttpResponse e.
Proof.
  unfold server.getVideos, server.answer.
  destruct (server.validateKeyword st w (server.keywordOf r)) as [[e'|] w1];
    simpl; intros H; [|discriminate].
  injection H as ->. reflexivity.
Qed.

(** C5.  A keyword that is neither in the cache nor in the refreshed list
    of collections is answered with 400 and the plain-text message naming
    it; when the listing itself fails the answer is 500 with the generic
    message; and a 400 is never the answer to a failed listing. *)
Theorem unknown_keyword_400_listing_failure_500
  (st : server.Store) (w : server.World) (r : server.Request) :
  keywordExistsIn (server.keywordOf r) (server.existingCollections w) = false ->
  match server.ListCollectionNames st with
  | None =>
      fst (server.getVideos st w r)
      = {| server.Status := 500;
           server.ContentType := "text/plain; charset=utf-8";
           server.Content := server.Plain ("Internal error" ++ String "010" "") |}
      /\ server.Status (fst (server.getVideos st w r)) <> 400
  | Some collections =>
      keywordExistsIn (server.keywordOf r) collections = false ->
      fst (server.getVideos st w r)
      = {| server.Status := 400;
           server.ContentType := "text/plain; charset=utf-8";
           server.Content :=
             server.Plain ("Videos for " ++ server.keywordOf r
                           ++ " are not being collected" ++ String "010" "") |}
  end.
Proof.
  intros Hmiss. pose proof (validateKeyword_miss st w _ Hmiss) as Hv.
  destruct (server.ListCollectionNames st) as [collections|].
  - intros Hunknown. rewrite Hunknown in Hv.
    rewrite (getVideos_refused _ _ _ _ Hv).
    unfold server.writeHttpResponse, server.notCollected.
    cbn [server.Code server.Message]. rewrite !append_assoc. reflexivity.
  - rewrite (getVideos_refused _ _ _ _ Hv). split; [reflexivity|].
    simpl. discriminate.
Qed.

(** [GET /videos/sports] when only ["music"] is collected. *)
Lemma unknown_keyword_400_listing_failure_500_witness :
  keywordExistsIn (server.keywordOf (scene.get "sports" []))
    (server.existingCollections scene.idle) = false
  /\ keywordExistsIn (server.keywordOf (scene.get "sports" [])) ["music"%string] = false
  /\ fst (server.getVideos (scene.store (scene.music [scene.a])) scene.idle
            (scene.get "sports" []))
     = {| server.Status := 400;
          server.ContentType := "text/plain; charset=utf-8";
          server.Content :=
            server.Plain ("Videos for " ++ server.keywordOf (scene.get "sports" [])
                          ++ " are not being collected" ++ String "010" "") |}.
Proof.
  split; [reflexivity|]. split; [reflexivity|].
  exact (unknown_keyword_400_listing_failure_500
           (scene.store (scene.music [scene.a])) scene.idle (scene.get "sports" [])
           eq_refl eq_refl).
Defined.

(** ** Page and limit *)

Lemma getVideos_calls (st : server.Store) (w w1 : server.World) (r : server.Request) :
  let q := url.Query (server.URL r) in
  server.validateKeyword st w (server.keywordOf r) = (None, w1) ->
  server.calls (snd (server.getVideos st w r))
  = server.calls w1
      ++ [server.FindCall (server.keywordOf r) (server.filterOf (url.Get q "search"))
            (server.findOptionsOf (server.pageOf q) (server.limitOf q))]
  /\ (server.maxLimit < server.limitOf q ->
      In "Error: limit exceeded"%string (server.logged (snd (server.getVideos st w r)))).
Proof.
  intros q Hv. unfold server.getVideos, server.answer. rewrite Hv. fold q.
  destruct (server.Find st _ _ _) as [rows|]; cbn [snd server.calls server.logged];
    (split; [destruct (server.maxLimit <? server.limitOf q); reflexivity|]);
    intros Hmax; apply Z.ltb_lt in Hmax; rewrite Hmax; cbn [server.logged server.logLine server.called];
    rewrite !in_app_iff; simpl; tauto.
Qed.

(** C8.  Once the keyword is accepted: [page] is 0 and [limit] is 10 when
    the parameter is absent or does not parse; a parsed [limit] is taken
    as it is, also above [maxLimit], where a line is logged; and that
    [page] and [limit] are what the store is asked with
    ([skip = page * limit], [limit + 1] rows) and what the envelope
    echoes. *)
Theorem page_and_limit_defaults
  (st : server.Store) (w w1 : server.World) (r : server.Request) :
  let q := url.Query (server.URL r) in
  let page := server.pageOf q in
  let limit := server.limitOf q in
  server.validateKeyword st w (server.keywordOf r) = (None, w1) ->
  (q !! "page"%string = None \/ strconv.Atoi (url.Get q "page") = None -> page = 0)
  /\ (q !! "limit"%string = None \/ strconv.Atoi (url.Get q "limit") = None -> limit = 10)
  /\ (forall n, strconv.Atoi (url.Get q "limit") = Some n -> limit = n)
  /\ server.calls (snd (server.getVideos st w r))
     = server.calls w1
         ++ [server.FindCall (server.keywordOf r) (server.filterOf (url.Get q "search"))
               {| mongo.Skip := GoInt.mul page limit;
                  mongo.Limit := GoInt.add limit 1;
                  mongo.SortBy := mongo.ByPublishedAtDesc |}]
  /\ (50 < limit ->
      In "Error: limit exceeded"%string (server.logged (snd (server.getVideos st w r))))
  /\ (forall m w', server.answer st w r = (server.Envelope m, w') ->
      server.Page m = page /\ server.Limit m = limit).
Proof.
  intros q page limit Hv.
  assert (forall key, q !! key = None -> strconv.Atoi (url.Get q key) = None) as Habsent.
  { intros key Hk. unfold url.Get. rewrite Hk. reflexivity. }
  split; [|split; [|split; [|split; [|split]]]].
  - intros [H|H]; [apply Habsent in H|]; unfold page, server.pageOf; rewrite H; reflexivity.
  - intros [H|H]; [apply Habsent in H|]; unfold limit, server.limitOf; rewrite H; reflexivity.
  - intros n H. unfold limit, server.limitOf. rewrite H. reflexivity.
  - apply (getVideos_calls st w w1 r Hv).
  - apply (getVideos_calls st w w1 r Hv).
  - intros m w' Ha. apply answer_envelope in Ha as (_ & rows & _ & _ & ->).
    split; reflexivity.
Qed.

(** [GET /videos/music?page=two&limit=100]: page 0, and 101 rows asked
    for. *)
Lemma page_and_limit_defaults_witness :
  let st := scene.store (scene.music [scene.a]) in
  let r := scene.get "music" [("page", "two"); ("limit", "100")] in
  let w1 := {| server.existingCollections := ["music"%string];
               server.logged := [];
               server.calls := [server.ListCollectionNamesCall] |} in
  server.validateKeyword st scene.idle (server.keywordOf r) = (None, w1)
  /\ server.pageOf (url.Query (server.URL r)) = 0
  /\ server.limitOf (url.Query (server.URL r)) = 100
  /\ server.calls (snd (server.getVideos st scene.idle r))
     = [server.ListCollectionNamesCall;
        server.FindCall "music" mongo.All
          {| mongo.Skip := 0; mongo.Limit := 101;
             mongo.SortBy := mongo.ByPublishedAtDesc |}]
  /\ In "Error: limit exceeded"%string
        (server.logged (snd (server.getVideos st scene.idle r))).
Proof.
  intros st r w1.
  assert (server.validateKeyword st scene.idle (server.keywordOf r) = (None, w1)) as Hv
    by (vm_compute; reflexivity).
  pose proof (page_and_limit_defaults st scene.idle w1 r Hv)
    as (Hpage & _ & Hlimit & Hcalls & Hlog & _).
  split; [exact Hv|].
  split; [apply Hpage; right; vm_compute; reflexivity|].
  split; [apply Hlimit; vm_compute; reflexivity|].
  split; [rewrite Hcalls; vm_compute; reflexivity|].
  apply Hlog. vm_compute. reflexivity.
Defined.

(** ** The JSON body *)

Lemma answer_refused (st : server.Store) (w w' : server.World) (r : server.Request)
  (e : server.Error) :
  server.answer st w r = (server.Refused e, w') ->
  server.Code e = 400 \/ server.Code e = 500.
Proof.
  unfold server.answer, server.validateKeyword.
  destruct (keywordExistsIn _ (server.existingCollections w)).
  - destruct (server.Find st _ _ _); [discriminate|].
    intros H. injection H as <- _. right. reflexivity.
  - destruct (server.ListCollectionNames st) as [collections|].
    + cbn [server.existingCollections server.setExistingCollections].
      destruct (keywordExistsIn _ collections).
      * destruct (server.Find st _ _ _); [discriminate|].
        intros H. injection H as <- _. right. reflexivity.
      * intros H. injection H as <- _. left. reflexivity.
    + intros H. injection H as <- _. right. reflexivity.
Qed.

(** C9, the counterexample.  [GET /videos/music] (page 0) on a collection
    of one document: the body has a [prev] and a [next] member, each the
    empty string; neither is omitted. *)
Lemma prev_and_next_present_on_first_page :
  let response :=
    fst (server.getVideos (scene.store (scene.music [scene.a])) scene.idle
           (scene.get "music" [])) in
  server.Status response = 200
  /\ exists body,
      server.Content response = server.Json body
      /\ json.member "page" body = Some (json.Number 0)
      /\ json.hasMember "prev" body = true
      /\ json.member "prev" body = Some (json.Str "")
      /\ json.hasMember "next" body = true
      /\ json.member "next" body = Some (json.Str "").
Proof.
  split; [vm_compute; reflexivity|].
  eexists. split; [vm_compute; reflexivity|].
  vm_compute. repeat split.
Qed.

(** C9, as the code has it.  The body of every 200 response has both a
    [prev] and a [next] member.  [prev] is the empty string when [page]
    is 0 and a link otherwise; [next] is the empty string when the store
    returned no more than [limit] rows, and when it is not empty it is
    the next-page link. *)
Theorem prev_and_next_always_present
  (st : server.Store) (w : server.World) (r : server.Request) :
  server.Status (fst (server.getVideos st w r)) = 200 ->
  exists m rows,
    server.Content (fst (server.getVideos st w r)) = server.Json (server.marshalResponse m)
    /\ server.Find st (server.keywordOf r)
         (server.filterOf (url.Get (url.Query (server.URL r)) "search"))
         (server.findOptionsOf (server.Page m) (server.Limit m)) = Some rows
    /\ json.member "prev" (server.marshalResponse m) = Some (json.Str (server.Prev m))
    /\ json.member "next" (server.marshalResponse m) = Some (json.Str (server.Next m))
    /\ (server.Page m = 0 -> server.Prev m = ""%string)
    /\ (server.Page m <> 0 ->
        server.Prev m
        = fst (server.pageLink (server.Host r) (server.URL r)
                 (GoInt.sub (server.Page m) 1))
        /\ server.Prev m <> ""%string)
    /\ (Z.of_nat (length rows) <= server.Limit m -> server.Next m = ""%string)
    /\ (server.Next m <> ""%string ->
        server.Next m
        = fst (server.pageLink (server.Host r) (server.URL r)
                 (GoInt.add (server.Page m) 1))).
Proof.
  intros Hstatus.
  destruct (server.answer st w r) as [[e|m] w'] eqn:Ha.
  - exfalso. pose proof (answer_refused _ _ _ _ _ Ha) as Hcode.
    unfold server.getVideos in Hstatus. rewrite Ha in Hstatus. simpl in Hstatus. lia.
  - pose proof Ha as He. apply answer_envelope in He as (w1 & rows & _ & Hf & ->).
    exists (envelopeOf r rows), rows.
    unfold server.getVideos. rewrite Ha.
    cbn [fst server.send server.Content].
    split; [reflexivity|]. split; [exact Hf|].
    split; [reflexivity|]. split; [reflexivity|].
    unfold envelopeOf. cbn [server.Page server.Limit server.Prev server.Next].
    set (page := server.pageOf _). set (limit := server.limitOf _).
    split; [intros ->; reflexivity|].
    split.
    { intros Hne. apply Z.eqb_neq in Hne. rewrite Hne.
      split; [reflexivity|apply pageLink_nonempty]. }
    split.
    { intros Hlen.
      apply (cursorLoop_few_rows (server.Host r) (server.URL r) page limit rows), Hlen. }
    intros Hne.
    destruct (cursorLoop_link (server.Host r) (server.URL r) page limit rows)
      as [[Hnone _]|[Hlink _]]; [contradiction|exact Hlink].
Qed.

(** Page 1 of three documents with [limit=1]. *)
Lemma prev_and_next_always_present_witness :
  let response :=
    fst (server.getVideos (scene.store (scene.music [scene.a; scene.b; scene.c]))
           scene.idle (scene.get "music" [("limit", "1"); ("page", "1")])) in
  server.Status response = 200
  /\ exists m rows,
      server.Content response = server.Json (server.marshalResponse m)
      /\ server.Find (scene.store (scene.music [scene.a; scene.b; scene.c])) "music"
           mongo.All (server.findOptionsOf (server.Page m) (server.Limit m)) = Some rows
      /\ json.member "prev" (server.marshalResponse m) = Some (json.Str (server.Prev m))
      /\ json.member "next" (server.marshalResponse m) = Some (json.Str (server.Next m)).
Proof.
  intros response.
  assert (server.Status response = 200) as Hstatus by (vm_compute; reflexivity).
  split; [exact Hstatus|].
  destruct (prev_and_next_always_present _ _ _ Hstatus)
    as (m & rows & Hbody & Hfind & Hprev & Hnext & _).
  exists m, rows. repeat split; assumption.
Defined.

(** ** Negative pages *)

(** C10, the counterexample.  [GET /videos/music?page=-1&limit=-1]: the
    page is negative, [skip = (-1) * (-1) = 1] is not, the store answers
    and the response is a 200 whose prev link carries [page=-2]. *)
Lemma negative_page_with_positive_skip :
  let st := scene.store (scene.music [scene.a; scene.b]) in
  let r := scene.get "music" [("page", "-1"); ("limit", "-1")] in
  strconv.Atoi (url.Get (url.Query (server.URL r)) "page") = Some (-1)
  /\ server.calls (snd (server.getVideos st scene.idle r))
     = [server.ListCollectionNamesCall;
        server.FindCall "music" mongo.All
          {| mongo.Skip := 1; mongo.Limit := 0; mongo.SortBy := mongo.ByPublishedAtDesc |}]
  /\ ~ (mongo.Skip (server.findOptionsOf (-1) (-1)) < 0)
  /\ exists m w',
      server.answer st scene.idle r = (server.Envelope m, w')
      /\ server.Prev m = "localhost:8080/videos/music?limit=-1&page=-2"%string.
Proof.
  split; [vm_compute; reflexivity|].
  split; [vm_compute; reflexivity|].
  split; [vm_compute; intros H; discriminate H|].
  eexists _, _. split; vm_compute; reflexivity.
Qed.

(** C10, as the code has it.  A request whose keyword is accepted and
    whose [page] parses to a negative [n] is not refused for it: the store
    is asked with [skip = n * limit] in [int] arithmetic, which is
    negative whenever [limit] is positive and the product is within
    [int]; when the store fails the response is the 500; when it answers,
    the envelope echoes [n] and carries the prev link, the request URL
    with [page] set to [n - 1] (wrapping at the smallest [int]). *)
Theorem negative_page_accepted
  (st : server.Store) (w w1 : server.World) (r : server.Request) (n : Z) :
  let q := url.Query (server.URL r) in
  let limit := server.limitOf q in
  let keyword := server.keywordOf r in
  let filter := server.filterOf (url.Get q "search") in
  let findOptions :=
    {| mongo.Skip := GoInt.mul n limit; mongo.Limit := GoInt.add limit 1;
       mongo.SortBy := mongo.ByPublishedAtDesc |} in
  server.validateKeyword st w keyword = (None, w1) ->
  strconv.Atoi (url.Get q "page") = Some n ->
  n < 0 ->
  server.calls (snd (server.getVideos st w r))
  = server.calls w1 ++ [server.FindCall keyword filter findOptions]
  /\ (0 < limit -> GoInt.minInt <= n * limit ->
      mongo.Skip findOptions = n * limit /\ mongo.Skip findOptions < 0)
  /\ server.Status (fst (server.getVideos st w r)) <> 400
  /\ (server.Find st keyword filter findOptions = None ->
      fst (server.getVideos st w r) = server.writeHttpResponse server.internalError)
  /\ (forall rows, server.Find st keyword filter findOptions = Some rows ->
      exists m,
        fst (server.getVideos st w r)
        = {| server.Status := 200; server.ContentType := "application/json";
             server.Content := server.Json (server.marshalResponse m) |}
        /\ server.Page m = n
        /\ server.Prev m
           = (server.Host r
              ++ url.String_
                   (url.setRawQuery (server.URL r)
                      (url.Set_ q "page" (strconv.Itoa (GoInt.sub n 1)))))%string
        /\ server.Prev m <> ""%string)
  /\ (GoInt.minInt < n -> GoInt.sub n 1 = n - 1).
Proof.
  intros q limit keyword filter findOptions Hv Hpage Hneg.
  assert (server.pageOf q = n) as Hn by (unfold server.pageOf; fold q; rewrite Hpage; reflexivity).
  assert (server.findOptionsOf (server.pageOf q) (server.limitOf q) = findOptions) as Ho
    by (rewrite Hn; reflexivity).
  split; [|split; [|split; [|split; [|split]]]].
  - destruct (getVideos_calls st w w1 r Hv) as [Hcalls _].
    rewrite Hcalls. fold q. rewrite Ho. reflexivity.
  - intros Hlimit Hmin. cbn [mongo.Skip findOptions]. unfold GoInt.mul.
    rewrite wrap_small; [nia|]. unfold GoInt.maxInt. nia.
  - unfold server.getVideos.
    destruct (server.answer st w r) as [[e|m] w'] eqn:Ha; cbn [fst server.send].
    + unfold server.answer in Ha. fold keyword in Ha. rewrite Hv in Ha.
      destruct (server.Find st _ _ _); [discriminate|].
      injection Ha as <- _. simpl. discriminate.
    + simpl. discriminate.
  - intros Hf. unfold server.getVideos, server.answer. fold keyword. rewrite Hv.
    fold q. fold filter. rewrite Ho, Hf. reflexivity.
  - intros rows Hf. exists (envelopeOf r rows).
    fold q in Ho. rewrite <- Ho in Hf.
    pose proof (answer_accepted st w r w1 rows Hv Hf) as Ha.
    unfold server.getVideos. destruct (server.answer st w r) as [a w'].
    simpl in Ha. subst a. cbn [fst server.send].
    split; [reflexivity|].
    unfold envelopeOf. cbn [server.Page server.Prev]. fold q. rewrite Hn.
    replace (n =? 0) with false by (symmetry; apply Z.eqb_neq; lia).
    split; [reflexivity|]. split; [reflexivity|apply pageLink_nonempty].
  - intros Hmin. apply wrap_small. unfold GoInt.maxInt. lia.
Qed.

(** [GET /videos/music?page=-1]: the store is asked with [skip = -10],
    refuses, and the response is the 500. *)
Lemma negative_page_accepted_witness :
  let st := scene.store (scene.music [scene.a; scene.b]) in
  let r := scene.get "music" [("page", "-1")] in
  let w1 := {| server.existingCollections := ["music"%string];
               server.logged := [];
               server.calls := [server.ListCollectionNamesCall] |} in
  server.validateKeyword st scene.idle (server.keywordOf r) = (None, w1)
  /\ strconv.Atoi (url.Get (url.Query (server.URL r)) "page") = Some (-1)
  /\ -1 < 0
  /\ server.calls (snd (server.getVideos st scene.idle r))
     = [server.ListCollectionNamesCall;
        server.FindCall "music" mongo.All
          {| mongo.Skip := -10; mongo.Limit := 11;
             mongo.SortBy := mongo.ByPublishedAtDesc |}]
  /\ fst (server.getVideos st scene.idle r)
     = server.writeHttpResponse server.internalError.
Proof.
  intros st r w1.
  assert (server.validateKeyword st scene.idle (server.keywordOf r) = (None, w1)) as Hv
    by (vm_compute; reflexivity).
  assert (strconv.Atoi (url.Get (url.Query (server.URL r)) "page") = Some (-1)) as Hp
    by (vm_compute; reflexivity).
  assert (-1 < 0) as Hneg by lia.
  pose proof (negative_page_accepted st scene.idle w1 r (-1) Hv Hp Hneg)
    as (Hcalls & _ & _ & Hfail & _).
  split; [exact Hv|]. split; [exact Hp|]. split; [exact Hneg|].
  split; [rewrite Hcalls; vm_compute; reflexivity|].
  apply Hfail. vm_compute. reflexivity.
Defined.

(** ** Persisting *)

Ltac world_simpl :=
  cbn [worker.called worker.logLine worker.setDatabase worker.setExistingCollections
       worker.database worker.calls worker.logged worker.existingCollections
       fst snd] in *.

Section Persist.

Variables (up : worker.Reach) (w : worker.World) (searchKey : string).

Lemma indexCreations_app (cs cs' : list worker.Call) :
  worker.indexCreations (cs ++ cs')
  = (worker.indexCreations cs + worker.indexCreations cs')%nat.
Proof.
  unfold worker.indexCreations. rewrite List.filter_app, length_app. reflexivity.
Qed.

(** [collectionExists] leaves the database alone and makes at most one
    call, a listing. *)
Lemma collectionExists_world :
  let w1 := snd (worker.collectionExists up w searchKey) in
  worker.database w1 = worker.database w
  /\ worker.indexCreations (worker.calls w1) = worker.indexCreations (worker.calls w).
Proof.
  unfold worker.collectionExists.
  destruct (keywordExistsIn searchKey (worker.existingCollections w)); [split; reflexivity|].
  cbn [worker.database worker.called].
  destruct (mongo.ListCollectionNames _ _); cbn [snd worker.database worker.calls
    worker.logLine worker.setExistingCollections worker.called];
    rewrite indexCreations_app;
    change (worker.indexCreations [worker.ListCollectionNamesCall]) with 0%nat;
    split; (reflexivity || lia).
Qed.

Lemma collectionExists_present :
  is_Some (worker.database w !! searchKey) ->
  worker.listUp up = true ->
  fst (worker.collectionExists up w searchKey) = true.
Proof.
  intros Hin Hup. unfold worker.collectionExists.
  destruct (keywordExistsIn searchKey (worker.existingCollections w)); [reflexivity|].
  cbn [worker.database worker.called]. unfold mongo.ListCollectionNames.
  rewrite Hup. cbn [fst]. apply keywordExistsIn_In, names_lookup, Hin.
Qed.

Lemma collectionExists_absent :
  worker.database w !! searchKey = None ->
  keywordExistsIn searchKey (worker.existingCollections w) = false ->
  fst (worker.collectionExists up w searchKey) = false.
Proof.
  intros Hout Hmiss. unfold worker.collectionExists. rewrite Hmiss.
  cbn [worker.database worker.called]. unfold mongo.ListCollectionNames.
  destruct (worker.listUp up); [|reflexivity].
  cbn [fst]. apply keywordExistsIn_false. rewrite names_lookup, Hout.
  intros [c Hc]. discriminate.
Qed.

(** The calls and the database after one persist. *)
Lemma saveVideosToDB_world (videos : list Video) :
  let existed := fst (worker.collectionExists up w searchKey) in
  let w1 := snd (worker.collectionExists up w searchKey) in
  let db1 :=
    if existed then worker.database w
    else fst (mongo.CreateMany (worker.indexUp up) (worker.database w) searchKey
                worker.theIndexes) in
  let w' := worker.saveVideosToDB up w searchKey videos in
  worker.calls w'
  = worker.calls w1
      ++ (if existed then [] else [worker.CreateManyCall searchKey worker.theIndexes])
      ++ [worker.InsertManyCall searchKey videos false]
  /\ worker.database w'
     = fst (mongo.InsertMany (worker.insertUp up) db1 searchKey videos false)
  /\ exists lines,
      worker.logged w'
      = lines
          ++ [if snd (mongo.InsertMany (worker.insertUp up) db1 searchKey videos false)
              then ("Inserted " ++ strconv.Itoa (Z.of_nat (length videos))
                    ++ " documents to db")%string
              else "Error: DB update failed"%string].
Proof.
  intros existed w1 db1 w'. subst w'. unfold worker.saveVideosToDB.
  pose proof collectionExists_world as [Hdb _]. fold w1 in Hdb.
  subst existed db1 w1.
  destruct (worker.collectionExists up w searchKey) as [existed w1].
  cbn [fst snd] in *. rewrite <- Hdb.
  destruct existed; cbn [negb].
  - world_simpl.
    destruct (mongo.InsertMany _ _ _ _ _) as [db [|]]; world_simpl;
      (split; [reflexivity|split; [reflexivity|eexists; reflexivity]]).
  - unfold worker.createIndexes, mongo.CreateMany. world_simpl.
    destruct (worker.indexUp up); world_simpl;
      destruct (mongo.InsertMany _ _ _ _ _) as [db [|]]; world_simpl;
      (split; [rewrite <- ?app_assoc; reflexivity
              |split; [reflexivity|eexists; reflexivity]]).
Qed.

End Persist.

(** ** Index creation *)

Lemma InsertMany_keeps (reach ordered : bool) (db : mongo.Database)
  (name key : string) (batch : list Video) :
  is_Some (db !! key) ->
  is_Some (fst (mongo.InsertMany reach db name batch ordered) !! key).
Proof.
  intros Hin. unfold mongo.InsertMany.
  destruct batch as [|v batch]; [exact Hin|].
  destruct reach; [|exact Hin].
  destruct (mongo.insertDocs _ _ _ _ _) as [[ds next] errors]. cbn [fst].
  destruct (decide (name = key)) as [->|Hne].
  - rewrite lookup_insert_eq. eauto.
  - rewrite lookup_insert_ne by exact Hne. exact Hin.
Qed.

Lemma InsertMany_creates (ordered : bool) (db : mongo.Database)
  (name : string) (batch : list Video) :
  batch <> [] ->
  is_Some (fst (mongo.InsertMany true db name batch ordered) !! name).
Proof.
  intros Hne. unfold mongo.InsertMany.
  destruct batch as [|v batch]; [congruence|].
  destruct (mongo.insertDocs _ _ _ _ _) as [[ds next] errors]. cbn [fst].
  rewrite lookup_insert_eq. eauto.
Qed.

Lemma CreateMany_creates (db : mongo.Database) (name : string)
  (models : list mongo.Index) :
  is_Some (fst (mongo.CreateMany true db name models) !! name).
Proof. unfold mongo.CreateMany. cbn [fst]. rewrite lookup_insert_eq. eauto. Qed.

Section IndexCreation.

Variable searchKey : string.

(** A persist that finds the collection, the listing answering, creates no
    index and leaves the collection in place. *)
Lemma saveVideosToDB_later (up : worker.Reach) (w : worker.World) (videos : list Video) :
  is_Some (worker.database w !! searchKey) ->
  worker.listUp up = true ->
  worker.indexCreations (worker.calls (worker.saveVideosToDB up w searchKey videos))
  = worker.indexCreations (worker.calls w)
  /\ is_Some (worker.database (worker.saveVideosToDB up w searchKey videos) !! searchKey).
Proof.
  intros Hin Hup.
  destruct (saveVideosToDB_world up w searchKey videos) as (Hcalls & Hdb & _).
  destruct (collectionExists_world up w searchKey) as [_ Hcount].
  rewrite (collectionExists_present up w searchKey Hin Hup) in Hcalls, Hdb.
  rewrite Hcalls, Hdb, !indexCreations_app, Hcount. split.
  - change (worker.indexCreations []) with 0%nat.
    change (worker.indexCreations [worker.InsertManyCall searchKey videos false])
      with 0%nat.
    lia.
  - apply InsertMany_keeps, Hin.
Qed.

Lemma saveAll_later (batches : list (worker.Reach * list Video)) (w : worker.World) :
  is_Some (worker.database w !! searchKey) ->
  Forall (fun b => worker.listUp (fst b) = true) batches ->
  worker.indexCreations (worker.calls (worker.saveAll w searchKey batches))
  = worker.indexCreations (worker.calls w).
Proof.
  revert w. induction batches as [|[up videos] batches IH]; intros w Hin Hup.
  - reflexivity.
  - apply Forall_cons in Hup as [Hup Hrest]. cbn [fst] in Hup.
    destruct (saveVideosToDB_later up w videos Hin Hup) as [Hcount Hin'].
    change (worker.saveAll w searchKey ((up, videos) :: batches))
      with (worker.saveAll (worker.saveVideosToDB up w searchKey videos) searchKey batches).
    rewrite (IH _ Hin' Hrest). exact Hcount.
Qed.

(** The first persist for a search term the store does not know. *)
Lemma saveVideosToDB_first (up : worker.Reach) (w : worker.World) (videos : list Video) :
  worker.database w !! searchKey = None ->
  keywordExistsIn searchKey (worker.existingCollections w) = false ->
  worker.calls (worker.saveVideosToDB up w searchKey videos)
  = worker.calls w
      ++ [worker.ListCollectionNamesCall;
          worker.CreateManyCall searchKey
            [mongo.PublishedAtDesc; mongo.TextTitleDescription; mongo.UniqueYoutubeId];
          worker.InsertManyCall searchKey videos false]
  /\ (worker.indexUp up = true \/ (worker.insertUp up = true /\ videos <> []) ->
      is_Some (worker.database (worker.saveVideosToDB up w searchKey videos) !! searchKey)).
Proof.
  intros Hout Hmiss.
  destruct (saveVideosToDB_world up w searchKey videos) as (Hcalls & Hdb & _).
  rewrite (collectionExists_absent up w searchKey Hout Hmiss) in Hcalls, Hdb.
  rewrite Hcalls, Hdb. split.
  - unfold worker.collectionExists. rewrite Hmiss.
    destruct (mongo.ListCollectionNames _ _); world_simpl;
      rewrite <- app_assoc; reflexivity.
  - intros [Hindex|[Hinsert Hvideos]].
    + rewrite Hindex. apply InsertMany_keeps, CreateMany_creates.
    + rewrite Hinsert. apply InsertMany_creates, Hvideos.
Qed.

End IndexCreation.

(** C6, the counterexample.  Two persists for ["music"] during which the
    listing of the collections fails: [collectionExists] answers [false]
    both times and the indexes are created twice. *)
Lemma indexes_created_again_when_listing_fails :
  let w1 := worker.saveVideosToDB scene.listingDown scene.fresh "music"
              [scene.video "a" 30] in
  let w2 := worker.saveVideosToDB scene.listingDown w1 "music" [scene.video "b" 20] in
  worker.indexCreations (worker.calls w1) = 1%nat
  /\ is_Some (worker.database w1 !! "music"%string)
  /\ worker.calls w2
     = worker.calls w1
         ++ [worker.ListCollectionNamesCall;
             worker.CreateManyCall "music" worker.theIndexes;
             worker.InsertManyCall "music" [scene.video "b" 20] false]
  /\ worker.indexCreations (worker.calls w2) = 2%nat.
Proof.
  split; [vm_compute; reflexivity|].
  split; [vm_compute; eauto|].
  split; vm_compute; reflexivity.
Qed.

(** C6, as the code has it.  Persists for one search term run one after
    the other, the first when the store has no such collection and the
    term is not in the cache: the first persist lists the collections,
    creates the three indexes and inserts.  If that index creation or
    that insert reaches the store, and the listing answers in every later
    persist, no later persist creates indexes: over the whole run they
    are created exactly once, however many batches follow. *)
Theorem indexes_created_once
  (w : worker.World) (searchKey : string) (up : worker.Reach) (videos : list Video)
  (batches : list (worker.Reach * list Video)) :
  worker.database w !! searchKey = None ->
  keywordExistsIn searchKey (worker.existingCollections w) = false ->
  worker.indexUp up = true \/ (worker.insertUp up = true /\ videos <> []) ->
  Forall (fun b => worker.listUp (fst b) = true) batches ->
  worker.calls (worker.saveVideosToDB up w searchKey videos)
  = worker.calls w
      ++ [worker.ListCollectionNamesCall;
          worker.CreateManyCall searchKey
            [mongo.PublishedAtDesc; mongo.TextTitleDescription; mongo.UniqueYoutubeId];
          worker.InsertManyCall searchKey videos false]
  /\ worker.indexCreations
       (worker.calls (worker.saveAll w searchKey ((up, videos) :: batches)))
     = S (worker.indexCreations (worker.calls w)).
Proof.
  intros Hout Hmiss Hreach Hlist.
  destruct (saveVideosToDB_first searchKey up w videos Hout Hmiss) as [Hcalls Hin].
  split; [exact Hcalls|].
  change (worker.saveAll w searchKey ((up, videos) :: batches))
    with (worker.saveAll (worker.saveVideosToDB up w searchKey videos) searchKey batches).
  rewrite (saveAll_later searchKey batches _ (Hin Hreach) Hlist), Hcalls.
  rewrite indexCreations_app.
  change (worker.indexCreations [_; _; _]) with 1%nat. lia.
Qed.

(** Three batches for ["music"] on an empty database. *)
Lemma indexes_created_once_witness :
  let batches :=
    [(worker.allUp, [scene.video "b" 20; scene.video "c" 10]);
     (worker.allUp, [scene.video "a" 30; scene.video "d" 5])] in
  worker.database scene.fresh !! "music"%string = None
  /\ keywordExistsIn "music" (worker.existingCollections scene.fresh) = false
  /\ Forall (fun b => worker.listUp (fst b) = true) batches
  /\ worker.indexCreations
       (worker.calls
          (worker.saveAll scene.fresh "music"
             ((worker.allUp, [scene.video "a" 30]) :: batches)))
     = 1%nat.
Proof.
  intros batches.
  assert (Forall (fun b => worker.listUp (fst b) = true) batches) as Hlist
    by (repeat constructor).
  split; [reflexivity|]. split; [reflexivity|]. split; [exact Hlist|].
  apply (indexes_created_once scene.fresh "music" worker.allUp [scene.video "a" 30]
           batches eq_refl eq_refl (or_introl eq_refl) Hlist).
Defined.

(** ** Unordered inserts and duplicates *)

Section Duplicates.

Lemma hasYoutubeId_app (id : string) (ds ds' : list mongo.Doc) :
  mongo.hasYoutubeId id (ds ++ ds')
  = mongo.hasYoutubeId id ds || mongo.hasYoutubeId id ds'.
Proof. apply existsb_app. Qed.

Lemma countYoutubeId_app (id : string) (ds ds' : list mongo.Doc) :
  mongo.countYoutubeId id (ds ++ ds')
  = (mongo.countYoutubeId id ds + mongo.countYoutubeId id ds')%nat.
Proof. unfold mongo.countYoutubeId. rewrite List.filter_app, length_app. reflexivity. Qed.

Lemma countYoutubeId_absent (id : string) (ds : list mongo.Doc) :
  mongo.hasYoutubeId id ds = false -> mongo.countYoutubeId id ds = 0%nat.
Proof.
  induction ds as [|d ds IH]; [reflexivity|].
  unfold mongo.hasYoutubeId, mongo.countYoutubeId in *. simpl.
  destruct (String.eqb _ id); simpl; [discriminate|exact IH].
Qed.

Lemma countYoutubeId_stored (id : string) (v : Video) (n : N) :
  mongo.countYoutubeId id [mongo.stored v n]
  = if String.eqb (YoutubeID v) id then 1%nat else 0%nat.
Proof.
  unfold mongo.countYoutubeId. simpl. destruct (String.eqb _ id); reflexivity.
Qed.

Lemma hasYoutubeId_stored (id : string) (v : Video) (n : N) :
  mongo.hasYoutubeId id [mongo.stored v n] = String.eqb (YoutubeID v) id.
Proof. unfold mongo.hasYoutubeId. simpl. apply orb_false_r. Qed.

(** An unordered write under the unique index: the documents already
    there stay as they are, an id already there gains no document, an id
    that is new gets exactly one, and a duplicate in the batch is reported
    as a write error. *)
Lemma insertDocs_unordered (batch : list Video) :
  forall (ds : list mongo.Doc) (next : N),
    let '(ds', _, errors) := mongo.insertDocs false true batch ds next in
    (exists added, ds' = ds ++ added)
    /\ (forall id, mongo.hasYoutubeId id ds = true ->
        mongo.countYoutubeId id ds' = mongo.countYoutubeId id ds)
    /\ (forall id, mongo.hasYoutubeId id ds = false ->
        mongo.countYoutubeId id ds'
        = if existsb (fun v => String.eqb (YoutubeID v) id) batch then 1%nat else 0%nat)
    /\ (Exists (fun v => mongo.hasYoutubeId (YoutubeID v) ds = true) batch ->
        errors <> 0%nat).
Proof.
  induction batch as [|v batch IH]; intros ds next.
  - simpl. split; [exists []; rewrite app_nil_r; reflexivity|].
    split; [reflexivity|].
    split; [intros id Hid; apply countYoutubeId_absent, Hid|].
    intros H. apply Exists_nil in H. contradiction.
  - cbn [mongo.insertDocs andb].
    destruct (mongo.hasYoutubeId (YoutubeID v) ds) eqn:Hv.
    + specialize (IH ds next).
      destruct (mongo.insertDocs false true batch ds next) as [[ds' next'] errors].
      destruct IH as (Hkeep & Hold & Hnew & _).
      split; [exact Hkeep|]. split; [exact Hold|]. split; [|discriminate].
      intros id Hid. rewrite (Hnew id Hid). cbn [existsb].
      destruct (String.eqb_spec (YoutubeID v) id) as [Heq|_];
        [rewrite Heq in Hv; congruence|reflexivity].
    + specialize (IH (ds ++ [mongo.stored v next]) (next + 1)%N).
      destruct (mongo.insertDocs false true batch _ _) as [[ds' next'] errors].
      destruct IH as ([added Hkeep] & Hold & Hnew & Herr).
      split; [exists (mongo.stored v next :: added); rewrite Hkeep, <- app_assoc;
              reflexivity|].
      split; [|split].
      * intros id Hid. rewrite Hold
          by (rewrite hasYoutubeId_app, Hid; reflexivity).
        rewrite countYoutubeId_app, countYoutubeId_stored.
        destruct (String.eqb_spec (YoutubeID v) id) as [Heq|_];
          [rewrite Heq in Hv; congruence|lia].
      * intros id Hid. cbn [existsb].
        destruct (String.eqb_spec (YoutubeID v) id) as [Heq|Hne].
        -- rewrite Hold
             by (rewrite hasYoutubeId_app, hasYoutubeId_stored, Heq, String.eqb_refl;
                 apply orb_true_r).
           rewrite countYoutubeId_app, countYoutubeId_stored, Heq, String.eqb_refl.
           rewrite (countYoutubeId_absent id ds Hid). reflexivity.
        -- apply Hnew. rewrite hasYoutubeId_app, hasYoutubeId_stored, Hid.
           apply String.eqb_neq in Hne. rewrite Hne. reflexivity.
      * intros Hdup. apply Herr. apply Exists_cons in Hdup as [Hdup|Hdup]; [congruence|].
        eapply Exists_impl; [exact Hdup|]. simpl. intros x Hx.
        rewrite hasYoutubeId_app, Hx. reflexivity.
Qed.

Lemma hasIndex_addIndex (i j : mongo.Index) (l : list mongo.Index) :
  mongo.hasIndex i l = true -> mongo.hasIndex i (mongo.addIndex l j) = true.
Proof.
  intros H. unfold mongo.addIndex. destruct (mongo.hasIndex j l); [exact H|].
  unfold mongo.hasIndex in *. rewrite existsb_app, H. reflexivity.
Qed.

Lemma hasIndex_fold_addIndex (i : mongo.Index) (models l : list mongo.Index) :
  mongo.hasIndex i l = true ->
  mongo.hasIndex i (fold_left mongo.addIndex models l) = true.
Proof.
  revert l. induction models as [|j models IH]; intros l H; [exact H|].
  simpl. apply IH, hasIndex_addIndex, H.
Qed.

End Duplicates.


Lemma collectionExists_calls (up : worker.Reach) (w : worker.World) (searchKey : string) :
  exists pre,
    worker.calls (snd (worker.collectionExists up w searchKey)) = worker.calls w ++ pre
    /\ Forall (fun call => call = worker.ListCollectionNamesCall) pre.
Proof.
  unfold worker.collectionExists.
  destruct (keywordExistsIn searchKey (worker.existingCollections w)).
  - exists []. rewrite app_nil_r. split; [reflexivity|constructor].
  - exists [worker.ListCollectionNamesCall].
    destruct (mongo.ListCollectionNames _ _); world_simpl;
      (split; [reflexivity|repeat constructor]).
Qed.




(** * Further properties of the code *)

(** ** The collection cache of the server *)

(** X1.  [keywordExistsIn] answers [true] exactly for the members of the
    list, wherever they stand in it. *)
Theorem keywordExistsIn_exactly_members (keyword : string) (l : list string) :
  (keywordExistsIn keyword l = true <-> In keyword l)
  /\ (keywordExistsIn keyword l = false <-> ~ In keyword l)
  /\ (forall before after, keywordExistsIn keyword (before ++ keyword :: after) = true).
Proof.
  split; [apply keywordExistsIn_In|]. split; [apply keywordExistsIn_false|].
  intros before after. apply keywordExistsIn_In, in_elt.
Qed.

(** X2.  Whatever the store answers, [validateKeyword] accepts the
    keyword exactly when the keyword is in the cache afterwards; it makes
    at most one call, a listing, and logs only when that listing fails. *)
Theorem validateKeyword_accepts_iff_cached_afterwards
  (st : server.Store) (w : server.World) (keyword : string) :
  let w' := snd (server.validateKeyword st w keyword) in
  (fst (server.validateKeyword st w keyword) = None
   <-> In keyword (server.existingCollections w'))
  /\ (server.calls w' = server.calls w
      \/ server.calls w' = server.calls w ++ [server.ListCollectionNamesCall])
  /\ (server.logged w' <> server.logged w -> server.ListCollectionNames st = None).
Proof.
  unfold server.validateKeyword.
  destruct (keywordExistsIn keyword (server.existingCollections w)) eqn:Hhit.
  - cbn [fst snd]. split; [|split].
    + split; [intros _; apply keywordExistsIn_In, Hhit|reflexivity].
    + left. reflexivity.
    + congruence.
  - destruct (server.ListCollectionNames st) as [collections|].
    + cbn [server.existingCollections server.setExistingCollections].
      destruct (keywordExistsIn keyword collections) eqn:Hlisted;
        cbn [fst snd server.existingCollections server.setExistingCollections
             server.calls server.logged server.called].
      * split; [|split; [right; reflexivity|congruence]].
        split; [intros _; apply keywordExistsIn_In, Hlisted|reflexivity].
      * split; [|split; [right; reflexivity|congruence]].
        split; [discriminate|].
        intros H. apply keywordExistsIn_In in H. congruence.
    + cbn [fst snd server.existingCollections server.calls server.logged
           server.called server.logLine].
      split; [|split; [right; reflexivity|reflexivity]].
      split; [discriminate|].
      intros H. apply keywordExistsIn_In in H. congruence.
Qed.

(** X3.  On a miss the cache is replaced by what the store lists, not
    added to: names the store no longer lists are forgotten.  When the
    listing fails the cache is kept. *)
Theorem validateKeyword_refresh_replaces_cache
  (st : server.Store) (w : server.World) (keyword : string) :
  ~ In keyword (server.existingCollections w) ->
  server.existingCollections (snd (server.validateKeyword st w keyword))
  = match server.ListCollectionNames st with
    | Some collections => collections
    | None => server.existingCollections w
    end.
Proof.
  intros H. apply keywordExistsIn_false in H.
  unfold server.validateKeyword. rewrite H.
  destruct (server.ListCollectionNames st) as [collections|]; [|reflexivity].
  cbn [server.existingCollections server.setExistingCollections].
  destruct (keywordExistsIn keyword collections); reflexivity.
Qed.

(** A request for ["sports"] makes a server that knew ["news"] forget it
    when the store lists only ["music"]. *)
Lemma validateKeyword_refresh_replaces_cache_witness :
  let w := {| server.existingCollections := ["news"%string];
              server.logged := []; server.calls := [] |} in
  ~ In "sports"%string (server.existingCollections w)
  /\ server.existingCollections
       (snd (server.validateKeyword (scene.store (scene.music [])) w "sports"))
     = ["music"%string].
Proof.
  intros w.
  assert (~ In "sports"%string (server.existingCollections w)) as H
    by (intros [H|[]]; discriminate H).
  split; [exact H|].
  rewrite (validateKeyword_refresh_replaces_cache _ w "sports" H).
  vm_compute. reflexivity.
Defined.

(** ** The responses of the server *)

Lemma validateKeyword_error (st : server.Store) (w : server.World) (keyword : string)
  (e : server.Error) :
  fst (server.validateKeyword st w keyword) = Some e ->
  (e = server.internalError /\ server.ListCollectionNames st = None)
  \/ (e = {| server.Code := 400; server.Message := server.notCollected keyword |}
      /\ exists collections,
          server.ListCollectionNames st = Some collections /\ ~ In keyword collections).
Proof.
  unfold server.validateKeyword.
  destruct (keywordExistsIn keyword (server.existingCollections w)); [discriminate|].
  destruct (server.ListCollectionNames st) as [collections|].
  - cbn [server.existingCollections server.setExistingCollections].
    destruct (keywordExistsIn keyword collections) eqn:Hlisted; [discriminate|].
    cbn [fst]. intros H. injection H as <-. right. split; [reflexivity|].
    exists collections. split; [reflexivity|apply keywordExistsIn_false, Hlisted].
  - cbn [fst]. intros H. injection H as <-. left. split; reflexivity.
Qed.

Lemma validateKeyword_hit (st : server.Store) (w : server.World) (keyword : string) :
  In keyword (server.existingCollections w) ->
  server.validateKeyword st w keyword = (None, w).
Proof.
  intros H. apply keywordExistsIn_In in H.
  unfold server.validateKeyword. rewrite H. reflexivity.
Qed.

Lemma validateKeyword_miss_cache (st : server.Store) (w : server.World)
  (keyword : string) :
  ~ In keyword (server.existingCollections w) ->
  server.existingCollections (snd (server.validateKeyword st w keyword))
  = match server.ListCollectionNames st with
    | Some collections => collections
    | None => server.existingCollections w
    end.
Proof.
  intros H. apply keywordExistsIn_false in H.
  unfold server.validateKeyword. rewrite H.
  destruct (server.ListCollectionNames st) as [collections|]; [|reflexivity].
  cbn [server.existingCollections server.setExistingCollections].
  destruct (keywordExistsIn keyword collections); reflexivity.
Qed.

Lemma validateKeyword_accepted (st : server.Store) (w w1 : server.World)
  (keyword : string) :
  server.validateKeyword st w keyword = (None, w1) ->
  In keyword (server.existingCollections w1).
Proof.
  unfold server.validateKeyword.
  destruct (keywordExistsIn keyword (server.existingCollections w)) eqn:Hhit.
  - intros H. injection H as <-. apply keywordExistsIn_In, Hhit.
  - destruct (server.ListCollectionNames st) as [collections|]; [|discriminate].
    cbn [server.existingCollections server.setExistingCollections].
    destruct (keywordExistsIn keyword collections) eqn:Hlisted; [|discriminate].
    intros H. injection H as <-. apply keywordExistsIn_In, Hlisted.
Qed.

(** The world a successful request leaves. *)
Lemma answer_world (st : server.Store) (w w1 : server.World) (r : server.Request)
  (rows : list mongo.Doc) :
  let q := url.Query (server.URL r) in
  let page := server.pageOf q in
  let limit := server.limitOf q in
  server.validateKeyword st w (server.keywordOf r) = (None, w1) ->
  server.Find st (server.keywordOf r) (server.filterOf (url.Get q "search"))
    (server.findOptionsOf page limit) = Some rows ->
  server.existingCollections (snd (server.answer st w r)) = server.existingCollections w1
  /\ server.logged (snd (server.answer st w r))
     = server.logged w1
         ++ (if server.maxLimit <? limit then ["Error: limit exceeded"%string] else [])
         ++ server.loopLog
              (server.cursorLoop (server.Host r) (server.URL r) page limit rows).
Proof.
  intros q page limit Hv Hf. unfold server.answer. rewrite Hv.
  fold q page limit. rewrite Hf. cbn [snd server.existingCollections server.logged].
  destruct (server.maxLimit <? limit);
    cbn [server.existingCollections server.logged server.called server.logLine];
    rewrite <- ?app_assoc; split; reflexivity.
Qed.

Lemma cursorLoop_log (host : string) (u : url.URL) (page limit : Z)
  (rows : list mongo.Doc) :
  server.loopLog (server.cursorLoop host u page limit rows)
  = repeat "Error: failed to decode result"%string
      (length (List.filter (fun d => negb (mongo.decodes d)) rows)).
Proof.
  induction rows as [|d rows IH] using rev_ind; [reflexivity|].
  rewrite cursorLoop_snoc, List.filter_app, length_app, repeat_app.
  unfold server.loopBody, mongo.Decode.
  destruct (if limit <? _ then _ else _) as [n v].
  destruct (mongo.decodes d) eqn:Hd; simpl; rewrite IH, Hd; simpl;
    rewrite ?app_nil_r; reflexivity.
Qed.

(** X4.  The status of a response is 200, 400 or 500.  It is 200 exactly
    when the keyword was accepted and the find succeeded, and then the
    body is JSON; it is 400 exactly when the store listed its collections
    and the keyword was not among them, 500 when the listing or the find
    failed; every response that is not a 200 is plain text. *)
Theorem getVideos_status (st : server.Store) (w : server.World) (r : server.Request) :
  let q := url.Query (server.URL r) in
  let keyword := server.keywordOf r in
  let found :=
    server.Find st keyword (server.filterOf (url.Get q "search"))
      (server.findOptionsOf (server.pageOf q) (server.limitOf q)) in
  let accepted := fst (server.validateKeyword st w keyword) = None in
  let response := fst (server.getVideos st w r) in
  (server.Status response = 200 <-> accepted /\ found <> None)
  /\ (server.Status response = 400
      <-> ~ In keyword (server.existingCollections w)
          /\ exists collections,
              server.ListCollectionNames st = Some collections
              /\ ~ In keyword collections)
  /\ (server.Status response = 500
      <-> (~ accepted /\ server.ListCollectionNames st = None)
          \/ (accepted /\ found = None))
  /\ (server.Status response = 200 \/ server.Status response = 400
      \/ server.Status response = 500)
  /\ (server.Status response = 200 ->
      server.ContentType response = "application/json"%string
      /\ exists body, server.Content response = server.Json body)
  /\ (server.Status response <> 200 ->
      server.ContentType response = "text/plain; charset=utf-8"%string
      /\ exists text, server.Content response = server.Plain text).
Proof.
  intros q keyword found accepted response.
  subst response accepted. unfold server.getVideos, server.answer. fold keyword.
  destruct (server.validateKeyword st w keyword) as [[e|] w1] eqn:Hv.
  - assert (fst (server.validateKeyword st w keyword) = Some e) as He
      by (rewrite Hv; reflexivity).
    assert (~ In keyword (server.existingCollections w)) as Hmiss.
    { intros Hin. rewrite (validateKeyword_hit st w keyword Hin) in Hv.
      discriminate. }
    apply validateKeyword_error in He.
    cbn [fst server.send server.writeHttpResponse server.Status server.ContentType
         server.Content].
    destruct He as [[-> Hl]|[-> (collections & Hl & Hout)]];
      cbn [server.Code server.internalError server.StatusInternalServerError];
      rewrite Hl.
    + repeat split; try discriminate; try tauto; try (intros [? ?]; discriminate);
        try (intros (_ & ? & ? & _); discriminate); eauto.
    + repeat split; try discriminate; try tauto; try (intros [? ?]; discriminate);
        eauto.
      * intros [[_ ?]|[? _]]; discriminate.
  - fold q. fold found.
    assert (In keyword (server.existingCollections w1)) as Hin
      by (eapply validateKeyword_accepted; exact Hv).
    assert (~ In keyword (server.existingCollections w)
            -> forall collections, server.ListCollectionNames st = Some collections
               -> In keyword collections) as Hlisted.
    { intros Hmiss collections Hl.
      pose proof (validateKeyword_miss_cache st w keyword Hmiss) as Hc.
      rewrite Hv, Hl in Hc. cbn [snd] in Hc. rewrite <- Hc. exact Hin. }
    destruct found as [rows|];
      cbn [fst server.send server.writeHttpResponse server.Status server.ContentType
           server.Content server.Code server.internalError
           server.StatusInternalServerError server.StatusOK].
    + repeat split; try discriminate; try tauto; eauto.
      * intros (Hmiss & collections & Hl & Hout). exfalso. eauto.
      * intros [[H _]|[_ H]]; [contradiction H; reflexivity|discriminate].
    + repeat split; try discriminate; try tauto; eauto.
      * intros (Hmiss & collections & Hl & Hout). exfalso. eauto.
Qed.

(** X5.  A successful request returns every row the store gave that
    decodes, in the store's order, and logs one line for every row that
    does not: no row is dropped silently, whatever [limit] is. *)
Theorem getVideos_returns_or_logs_every_row
  (st : server.Store) (w w' : server.World) (r : server.Request)
  (m : server.videosResponseMsg) :
  let q := url.Query (server.URL r) in
  server.answer st w r = (server.Envelope m, w') ->
  exists w1 rows,
    server.validateKeyword st w (server.keywordOf r) = (None, w1)
    /\ server.Find st (server.keywordOf r) (server.filterOf (url.Get q "search"))
         (server.findOptionsOf (server.Page m) (server.Limit m)) = Some rows
    /\ server.Result m = omap mongo.Decode rows
    /\ server.logged w'
       = server.logged w1
           ++ (if 50 <? server.Limit m then ["Error: limit exceeded"%string] else [])
           ++ repeat "Error: failed to decode result"%string
                (length rows - length (server.Result m))
    /\ (length (server.Result m) <= length rows)%nat.
Proof.
  intros q Ha. pose proof Ha as He.
  apply answer_envelope in He as (w1 & rows & Hv & Hf & ->).
  exists w1, rows. unfold envelopeOf. cbn [server.Page server.Limit server.Result].
  fold q. split; [exact Hv|]. split; [exact Hf|]. split; [reflexivity|].
  destruct (answer_world st w w1 r rows Hv Hf) as [_ Hlog].
  rewrite Ha in Hlog. cbn [snd] in Hlog. fold q in Hlog.
  rewrite Hlog, cursorLoop_log.
  assert (length rows
          = (length (omap mongo.Decode rows)
             + length (List.filter (fun d => negb (mongo.decodes d)) rows))%nat) as Hlen.
  { clear. induction rows as [|d rows IH]; [reflexivity|].
    cbn [omap list_omap List.filter length]. unfold mongo.Decode at 1.
    destruct (mongo.decodes d); cbn [negb length]; rewrite IH; lia. }
  split; [|lia].
  do 3 f_equal. lia.
Qed.

(** Two rows of which the first does not decode. *)
Lemma getVideos_returns_or_logs_every_row_witness :
  let st := scene.store (scene.music [scene.broken; scene.a]) in
  let r := scene.get "music" [] in
  exists m w',
    server.answer st scene.idle r = (server.Envelope m, w')
    /\ exists w1 rows,
        server.validateKeyword st scene.idle (server.keywordOf r) = (None, w1)
        /\ server.Find st (server.keywordOf r)
             (server.filterOf (url.Get (url.Query (server.URL r)) "search"))
             (server.findOptionsOf (server.Page m) (server.Limit m)) = Some rows
        /\ server.Result m = omap mongo.Decode rows
        /\ server.logged w'
           = server.logged w1
               ++ (if 50 <? server.Limit m then ["Error: limit exceeded"%string] else [])
               ++ repeat "Error: failed to decode result"%string
                    (length rows - length (server.Result m))
        /\ (length (server.Result m) <= length rows)%nat.
Proof.
  intros st r. eexists _, _. split; [vm_compute; reflexivity|].
  apply (getVideos_returns_or_logs_every_row st scene.idle).
  vm_compute. reflexivity.
Defined.




(** A request for a keyword that is not in the cache in between ends the
    run: the store has lost ["music"], a request for ["sports"] replaces
    the cache by the empty listing, and the next request for ["music"]
    lists again and is refused. *)
Example uncached_keyword_in_between_lists_again :
  let emptied := scene.store ∅ in
  let w1 := snd (server.getVideos (scene.store (scene.music [scene.a])) scene.idle
                   (scene.get "music" [])) in
  let w2 := snd (server.getVideos emptied w1 (scene.get "sports" [])) in
  server.existingCollections w1 = ["music"%string]
  /\ server.existingCollections w2 = []
  /\ server.Status (fst (server.getVideos emptied w2 (scene.get "music" []))) = 400
  /\ server.calls (snd (server.getVideos emptied w2 (scene.get "music" [])))
     = server.calls w2 ++ [server.ListCollectionNamesCall].
Proof. vm_compute. repeat split. Qed.

(** X7.  When none of the rows the store returned decodes, in particular
    when it returned none (a page past the end, an empty collection), the
    200 body carries [result] as [null], not as an empty array. *)
Theorem empty_result_is_null
  (st : server.Store) (w w1 : server.World) (r : server.Request)
  (rows : list mongo.Doc) :
  let q := url.Query (server.URL r) in
  server.validateKeyword st w (server.keywordOf r) = (None, w1) ->
  server.Find st (server.keywordOf r) (server.filterOf (url.Get q "search"))
    (server.findOptionsOf (server.pageOf q) (server.limitOf q)) = Some rows ->
  Forall (fun d => mongo.decodes d = false) rows ->
  server.Status (fst (server.getVideos st w r)) = 200
  /\ exists body,
      server.Content (fst (server.getVideos st w r)) = server.Json body
      /\ json.member "result" body = Some json.Null
      /\ json.member "page" body = Some (json.Number (server.pageOf q))
      /\ json.member "limit" body = Some (json.Number (server.limitOf q)).
Proof.
  intros q Hv Hf Hnone.
  pose proof (answer_accepted st w r w1 rows Hv Hf) as Ha.
  unfold server.getVideos. destruct (server.answer st w r) as [a w'].
  cbn [fst] in Ha. subst a. cbn [fst server.send server.Status server.Content].
  split; [reflexivity|]. eexists. split; [reflexivity|].
  assert (omap mongo.Decode rows = []) as Hempty.
  { clear -Hnone. induction Hnone as [|d rows Hd _ IH]; [reflexivity|].
    cbn [omap list_omap]. unfold mongo.Decode at 1. rewrite Hd. exact IH. }
  unfold server.marshalResponse, envelopeOf, json.member.
  cbn [server.Page server.Limit server.Result]. rewrite Hempty.
  repeat split.
Qed.

(** Page 5 of a collection of one document. *)
Lemma empty_result_is_null_witness :
  let st := scene.store (scene.music [scene.a]) in
  let r := scene.get "music" [("page", "5")] in
  server.Status (fst (server.getVideos st scene.idle r)) = 200
  /\ exists body,
      server.Content (fst (server.getVideos st scene.idle r)) = server.Json body
      /\ json.member "result" body = Some json.Null
      /\ json.member "page" body = Some (json.Number 5)
      /\ json.member "limit" body = Some (json.Number 10).
Proof.
  intros st r.
  eapply (empty_result_is_null st scene.idle _ r []).
  - vm_compute. reflexivity.
  - vm_compute. reflexivity.
  - constructor.
Defined.

(** ** The page a request reads *)

Section Pages.

Variable textMatch : string -> Video -> bool.

Let newerFirst (x y : mongo.Doc) : Prop :=
  PublishedAt (mongo.fields y) <= PublishedAt (mongo.fields x).

Lemma insertDesc_sorted (d : mongo.Doc) (l : list mongo.Doc) :
  StronglySorted newerFirst l -> StronglySorted newerFirst (mongo.insertDesc d l).
Proof.
  induction 1 as [|x l Hl IH Hx]; simpl.
  - repeat constructor.
  - destruct (Z.ltb_spec (PublishedAt (mongo.fields x)) (PublishedAt (mongo.fields d))).
    + constructor; [constructor; assumption|].
      constructor; [unfold newerFirst; lia|].
      eapply Forall_impl; [exact Hx|]. unfold newerFirst. simpl. intros y Hy. lia.
    + constructor; [exact IH|].
      apply Forall_insertDesc; [unfold newerFirst; lia|exact Hx].
Qed.

Lemma sortDesc_sorted (l : list mongo.Doc) : StronglySorted newerFirst (mongo.sortDesc l).
Proof.
  induction l as [|x l IH]; [constructor|].
  change (mongo.sortDesc (x :: l)) with (mongo.insertDesc x (mongo.sortDesc l)).
  apply insertDesc_sorted, IH.
Qed.

Lemma sorted_take (n : nat) (l : list mongo.Doc) :
  StronglySorted newerFirst l -> StronglySorted newerFirst (take n l).
Proof.
  intros H. rewrite <- (take_drop n l) in H.
  apply StronglySorted_app_1_l in H. exact H.
Qed.

Lemma sorted_drop (n : nat) (l : list mongo.Doc) :
  StronglySorted newerFirst l -> StronglySorted newerFirst (drop n l).
Proof.
  intros H. rewrite <- (take_drop n l) in H.
  apply StronglySorted_app_1_r in H. exact H.
Qed.

Lemma sorted_decoded (l : list mongo.Doc) :
  StronglySorted newerFirst l ->
  StronglySorted (fun a b : Video => PublishedAt b <= PublishedAt a)
    (omap mongo.Decode l).
Proof.
  induction 1 as [|x l Hl IH Hx]; [constructor|].
  cbn [omap list_omap]. unfold mongo.Decode at 1.
  destruct (mongo.decodes x); [|exact IH].
  constructor; [exact IH|].
  clear -Hx. induction Hx as [|y l Hy _ IH]; [constructor|].
  cbn [omap list_omap]. unfold mongo.Decode at 1.
  destruct (mongo.decodes y); [constructor; [exact Hy|exact IH]|exact IH].
Qed.

Lemma mongoStore_rows (listUp findUp : bool) (db : mongo.Database) (keyword : string)
  (f : mongo.Filter) (page limit : Z) (rows : list mongo.Doc) :
  server.Find (server.mongoStore textMatch listUp findUp db) keyword f
    (server.findOptionsOf page limit) = Some rows ->
  0 <= page -> 0 <= limit -> (page + 1) * limit < GoInt.maxInt ->
  rows = take (Z.to_nat (limit + 1))
           (drop (Z.to_nat (page * limit))
                 (mongo.sortDesc (mongo.matching textMatch f (mongo.view db keyword)))).
Proof.
  intros Hf Hpage Hlimit Hbound. apply Find_Some in Hf as [_ ->].
  unfold server.findOptionsOf. cbn [mongo.Skip mongo.Limit].
  unfold GoInt.mul, GoInt.add.
  rewrite !wrap_small by (unfold GoInt.minInt, GoInt.maxInt in *; nia).
  unfold mongo.applyLimit.
  destruct (Z.eqb_spec (limit + 1) 0); [lia|].
  f_equal. lia.
Qed.

(** X8.  On the Mongo database, with [page] and [limit] not negative and
    [(page+1)*limit] within [int], the result list is the decodable part
    of the documents at positions [page*limit] to [page*limit + limit]
    of the matching documents in sorted order: [limit + 1] positions, so
    at most [limit + 1] documents, and the last position of a page is the
    first of the next. *)
Theorem result_is_a_slice_of_limit_plus_one
  (listUp findUp : bool) (db : mongo.Database) (w w' : server.World)
  (r : server.Request) (m : server.videosResponseMsg) :
  let q := url.Query (server.URL r) in
  let sorted :=
    mongo.sortDesc
      (mongo.matching textMatch (server.filterOf (url.Get q "search"))
         (mongo.view db (server.keywordOf r))) in
  server.answer (server.mongoStore textMatch listUp findUp db) w r
  = (server.Envelope m, w') ->
  0 <= server.Page m -> 0 <= server.Limit m ->
  (server.Page m + 1) * server.Limit m < GoInt.maxInt ->
  server.Result m
  = omap mongo.Decode
      (take (Z.to_nat (server.Limit m + 1))
         (drop (Z.to_nat (server.Page m * server.Limit m)) sorted))
  /\ Z.of_nat (length (server.Result m)) <= server.Limit m + 1.
Proof.
  intros q sorted Ha. apply answer_envelope in Ha as (w1 & rows & _ & Hf & ->).
  unfold envelopeOf. cbn [server.Page server.Limit server.Result]. fold q in Hf |- *.
  intros Hpage Hlimit Hbound.
  apply mongoStore_rows in Hf; [|assumption..]. fold sorted in Hf.
  rewrite <- Hf. split; [reflexivity|].
  assert (length (omap mongo.Decode rows) <= length rows)%nat as Hle.
  { clear. induction rows as [|d rows IH]; [reflexivity|].
    cbn [omap list_omap length]. destruct (mongo.Decode d); cbn [length]; lia. }
  assert (length rows <= Z.to_nat (server.limitOf q + 1))%nat
    by (rewrite Hf, length_take; lia).
  lia.
Qed.

(** X9.  On the Mongo database the result list of every successful
    request is in descending [publishedAt] order, whatever [page],
    [limit] and [search] are. *)
Theorem result_is_newest_first
  (listUp findUp : bool) (db : mongo.Database) (w w' : server.World)
  (r : server.Request) (m : server.videosResponseMsg) :
  server.answer (server.mongoStore textMatch listUp findUp db) w r
  = (server.Envelope m, w') ->
  StronglySorted (fun a b : Video => PublishedAt b <= PublishedAt a) (server.Result m).
Proof.
  intros Ha. apply answer_envelope in Ha as (w1 & rows & _ & Hf & ->).
  unfold envelopeOf. cbn [server.Result].
  apply Find_Some in Hf as [_ ->].
  apply sorted_decoded. unfold mongo.applyLimit.
  destruct (_ =? 0); [|apply sorted_take]; apply sorted_drop, sortDesc_sorted.
Qed.

End Pages.

(** Page 1 of three documents with [limit=1]: the documents at positions
    1 and 2. *)
Lemma result_is_a_slice_of_limit_plus_one_witness :
  let db := scene.music [scene.c; scene.a; scene.b] in
  exists m w',
    server.answer (scene.store db) scene.idle
      (scene.get "music" [("limit", "1"); ("page", "1")]) = (server.Envelope m, w')
    /\ map YoutubeID (server.Result m) = ["b"; "c"]%string
    /\ server.Result m
       = omap mongo.Decode
           (take (Z.to_nat (server.Limit m + 1))
              (drop (Z.to_nat (server.Page m * server.Limit m))
                 (mongo.sortDesc (mongo.matching scene.anyText mongo.All
                                    (mongo.view db "music")))))
    /\ Z.of_nat (length (server.Result m)) <= server.Limit m + 1.
Proof.
  intros db. eexists _, _. split; [vm_compute; reflexivity|].
  split; [vm_compute; reflexivity|].
  eapply (result_is_a_slice_of_limit_plus_one scene.anyText true true db scene.idle _
            (scene.get "music" [("limit", "1"); ("page", "1")])).
  - vm_compute. reflexivity.
  - vm_compute. discriminate.
  - vm_compute. discriminate.
  - vm_compute. reflexivity.
Defined.

(** Three documents stored oldest first come back newest first. *)
Lemma result_is_newest_first_witness :
  exists m w',
    server.answer (scene.store (scene.music [scene.c; scene.b; scene.a])) scene.idle
      (scene.get "music" []) = (server.Envelope m, w')
    /\ map YoutubeID (server.Result m) = ["a"; "b"; "c"]%string
    /\ StronglySorted (fun a b : Video => PublishedAt b <= PublishedAt a)
         (server.Result m).
Proof.
  eexists _, _. split; [vm_compute; reflexivity|].
  split; [vm_compute; reflexivity|].
  eapply (result_is_newest_first scene.anyText true true
            (scene.music [scene.c; scene.b; scene.a]) scene.idle _
            (scene.get "music" [])).
  vm_compute. reflexivity.
Defined.

(** ** Reading back what [Itoa] wrote *)

Section Decimal.

Lemma digits_of_uint_acc (u : Decimal.uint) :
  forall p : positive,
    strconv.digits (NilEmpty.string_of_uint u) (Z.pos p)
    = Some (Z.pos (Pos.of_uint_acc u p)).
Proof.
  induction u; intros p; cbn [NilEmpty.string_of_uint strconv.digits Pos.of_uint_acc];
    [reflexivity|..];
    (match goal with
     | |- context [strconv.digitOf ?c] =>
         change (strconv.digitOf c) with (Some (Z.of_N (N_of_ascii c) - 48));
         cbn [N_of_ascii]
     end;
     rewrite <- IHu; f_equal; vm_compute N_of_digits; lia).
Qed.

Lemma digits_of_uint (u : Decimal.uint) :
  strconv.digits (NilEmpty.string_of_uint u) 0 = Some (Z.of_N (Pos.of_uint u)).
Proof.
  induction u; cbn [NilEmpty.string_of_uint strconv.digits Pos.of_uint];
    [reflexivity|..];
    match goal with
    | |- context [strconv.digitOf ?c] =>
        change (strconv.digitOf c) with (Some (Z.of_N (N_of_ascii c) - 48))
    end; cbv iota beta.
  - exact IHu.
  - apply (digits_of_uint_acc u 1).
  - apply (digits_of_uint_acc u 2).
  - apply (digits_of_uint_acc u 3).
  - apply (digits_of_uint_acc u 4).
  - apply (digits_of_uint_acc u 5).
  - apply (digits_of_uint_acc u 6).
  - apply (digits_of_uint_acc u 7).
  - apply (digits_of_uint_acc u 8).
  - apply (digits_of_uint_acc u 9).
Qed.

End Decimal.

Lemma Atoi_unsigned (u : Decimal.uint) :
  u <> Decimal.Nil ->
  strconv.Atoi (NilEmpty.string_of_uint u)
  = (if GoInt.inRange (Z.of_N (Pos.of_uint u)) then Some (Z.of_N (Pos.of_uint u))
     else None)
  /\ strconv.Atoi (String "-" (NilEmpty.string_of_uint u))
     = (if GoInt.inRange (- Z.of_N (Pos.of_uint u)) then Some (- Z.of_N (Pos.of_uint u))
        else None).
Proof.
  intros Hu. pose proof (digits_of_uint u) as Hd.
  destruct u; [congruence|..];
    (split;
     [change (strconv.Atoi (NilEmpty.string_of_uint ?u))
        with (match strconv.digits (NilEmpty.string_of_uint u) 0 with
              | Some n => if GoInt.inRange n then Some n else None
              | None => None
              end)
     |change (strconv.Atoi (String "-" (NilEmpty.string_of_uint ?u)))
        with (match strconv.digits (NilEmpty.string_of_uint u) 0 with
              | Some n => if GoInt.inRange (- n) then Some (- n) else None
              | None => None
              end)];
     rewrite Hd; reflexivity).
Qed.

Lemma Atoi_Itoa (z : Z) :
  GoInt.inRange z = true -> strconv.Atoi (strconv.Itoa z) = Some z.
Proof.
  intros Hz. destruct z as [|p|p].
  - reflexivity.
  - unfold strconv.Itoa, Z.to_int, NilZero.string_of_int, NilZero.string_of_uint.
    pose proof (DecimalPos.Unsigned.of_to p) as Hp.
    destruct (Pos.to_uint p) eqn:Hu; [discriminate Hp|..];
      rewrite <- Hu in *;
      (rewrite (proj1 (Atoi_unsigned (Pos.to_uint p) ltac:(rewrite Hu; discriminate))),
         Hp; cbn [Z.of_N]; rewrite Hz; reflexivity).
  - unfold strconv.Itoa, Z.to_int, NilZero.string_of_int, NilZero.string_of_uint.
    pose proof (DecimalPos.Unsigned.of_to p) as Hp.
    destruct (Pos.to_uint p) eqn:Hu; [discriminate Hp|..];
      rewrite <- Hu in *;
      (rewrite (proj2 (Atoi_unsigned (Pos.to_uint p) ltac:(rewrite Hu; discriminate))),
         Hp; change (- Z.of_N (N.pos p)) with (Z.neg p); rewrite Hz; reflexivity).
Qed.

Lemma Atoi_inRange (s : string) (z : Z) :
  strconv.Atoi s = Some z -> GoInt.inRange z = true.
Proof.
  unfold strconv.Atoi. destruct s as [|c s]; [discriminate|].
  destruct (if Ascii.eqb c "-" then _ else _) as [neg body].
  destruct body; [discriminate|].
  destruct (strconv.digits _ 0) as [n|]; [|discriminate].
  destruct (GoInt.inRange _) eqn:Hr; [|discriminate].
  intros H. injection H as <-. exact Hr.
Qed.

Lemma wrap_inRange (z : Z) : GoInt.inRange (GoInt.wrap z) = true.
Proof.
  unfold GoInt.inRange, GoInt.wrap, GoInt.minInt, GoInt.maxInt.
  pose proof (Z.mod_pos_bound (z + 2 ^ 63) (2 ^ 64) ltac:(lia)).
  apply andb_true_iff. split; apply Z.leb_le; lia.
Qed.

(** ** Following the links *)

Lemma pageLink_reads_back (host : string) (u : url.URL) (p : Z) :
  GoInt.inRange p = true ->
  let u' := snd (server.pageLink host u p) in
  fst (server.pageLink host u p) = (host ++ url.String_ u')%string
  /\ url.Path u' = url.Path u
  /\ server.pageOf (url.Query u') = p
  /\ server.limitOf (url.Query u') = server.limitOf (url.Query u)
  /\ url.Get (url.Query u') "search" = url.Get (url.Query u) "search".
Proof.
  intros Hp u'. subst u'. unfold server.pageLink. cbn [fst snd].
  unfold url.setRawQuery, url.Query. cbn [url.Path url.RawQuery].
  split; [reflexivity|]. split; [reflexivity|].
  unfold server.pageOf, server.limitOf.
  rewrite Get_Set_same, (Atoi_Itoa p Hp), !Get_Set_other by discriminate.
  repeat split.
Qed.

(** X10.  The links of an envelope lead to the neighbouring pages of the
    same listing: a request made of the host and the URL a link is
    rendered from reads the same path, the same [limit] and [search], and
    as [page] the page after (for next) or before (for prev) the one
    answered, in [int] arithmetic. *)
Theorem links_lead_to_neighbouring_pages
  (st : server.Store) (w w' : server.World) (r : server.Request)
  (m : server.videosResponseMsg) :
  let q := url.Query (server.URL r) in
  let leadsTo (link : string) (page : Z) :=
    exists u',
      link = (server.Host r ++ url.String_ u')%string
      /\ url.Path u' = url.Path (server.URL r)
      /\ server.pageOf (url.Query u') = page
      /\ server.limitOf (url.Query u') = server.Limit m
      /\ url.Get (url.Query u') "search" = url.Get q "search" in
  server.answer st w r = (server.Envelope m, w') ->
  (server.Next m <> ""%string -> leadsTo (server.Next m) (GoInt.add (server.Page m) 1))
  /\ (server.Page m <> 0 -> leadsTo (server.Prev m) (GoInt.sub (server.Page m) 1))
  /\ (server.Page m < GoInt.maxInt -> GoInt.add (server.Page m) 1 = server.Page m + 1)
  /\ (GoInt.minInt < server.Page m -> GoInt.sub (server.Page m) 1 = server.Page m - 1).
Proof.
  intros q leadsTo Ha. apply answer_envelope in Ha as (w1 & rows & _ & _ & ->).
  unfold envelopeOf. cbn [server.Page server.Limit server.Prev server.Next].
  fold q. set (page := server.pageOf q).
  assert (GoInt.inRange page = true) as Hrange.
  { subst page. unfold server.pageOf.
    destruct (strconv.Atoi _) as [n|] eqn:Hn; [eapply Atoi_inRange, Hn|reflexivity]. }
  split; [|split; [|split]].
  - intros Hne.
    destruct (cursorLoop_link (server.Host r) (server.URL r) page
                (server.limitOf q) rows) as [[Hnone _]|[Hlink _]]; [contradiction|].
    rewrite Hlink.
    exists (snd (server.pageLink (server.Host r) (server.URL r) (GoInt.add page 1))).
    apply pageLink_reads_back, wrap_inRange.
  - intros Hne. apply Z.eqb_neq in Hne. rewrite Hne.
    exists (snd (server.pageLink (server.Host r) (server.URL r) (GoInt.sub page 1))).
    apply pageLink_reads_back, wrap_inRange.
  - intros Hlt. apply wrap_small.
    unfold GoInt.inRange in Hrange. apply andb_true_iff in Hrange as [H1 H2].
    apply Z.leb_le in H1, H2. lia.
  - intros Hlt. apply wrap_small.
    unfold GoInt.inRange in Hrange. apply andb_true_iff in Hrange as [H1 H2].
    apply Z.leb_le in H1, H2. lia.
Qed.

(** Page 1 of three documents with [limit=1] and a search: the links
    lead to pages 2 and 0. *)
Lemma links_lead_to_neighbouring_pages_witness :
  let r := scene.get "music" [("limit", "1"); ("page", "1"); ("search", "a b")] in
  exists m w',
    server.answer (scene.store (scene.music [scene.a; scene.b; scene.c])) scene.idle r
    = (server.Envelope m, w')
    /\ server.Next m = "localhost:8080/videos/music?limit=1&page=2&search=a+b"%string
    /\ server.Prev m = "localhost:8080/videos/music?limit=1&page=0&search=a+b"%string
    /\ (GoInt.minInt < server.Page m -> GoInt.sub (server.Page m) 1 = server.Page m - 1).
Proof.
  intros r. eexists _, _. split; [vm_compute; reflexivity|].
  split; [vm_compute; reflexivity|]. split; [vm_compute; reflexivity|].
  eapply (links_lead_to_neighbouring_pages
            (scene.store (scene.music [scene.a; scene.b; scene.c])) scene.idle _ r).
  vm_compute. reflexivity.
Defined.

(** X11.  The keyword is what follows ["/videos/"] in the path, up to the
    end and slashes included; for the path ["/videos/"] itself it is the
    empty string, which is validated like any other name. *)
Theorem keywordOf_is_the_rest_of_the_path
  (host : string) (keyword escaped : string) (q : url.Values) :
  server.keywordOf
    {| server.Host := host;
       server.URL := {| url.Path := "/videos/" ++ keyword; url.EscapedPath := escaped;
                        url.RawQuery := q |} |}
  = keyword.
Proof.
  unfold server.keywordOf. cbn [server.URL url.Path].
  change (String.length ("/videos/" ++ keyword) - 8)%nat
    with (String.length keyword - 0)%nat.
  rewrite Nat.sub_0_r.
  change (substring 8 (String.length keyword) ("/videos/" ++ keyword))
    with (substring 0 (String.length keyword) keyword).
  induction keyword as [|c k IH]; [reflexivity|].
  cbn [String.length substring]. f_equal. exact IH.
Qed.

(** ** Fetching *)

Section Fetching.

Variable parse : string -> option Z.

(** What [fetchVideos] makes of a complete result. *)
Let videoFor (item : youtube.SearchResult) (v : Video) : Prop :=
  exists id snippet thumbnails thumbnail,
    youtube.Id item = Some id
    /\ youtube.Snippet item = Some snippet
    /\ youtube.Thumbnails snippet = Some thumbnails
    /\ youtube.Default thumbnails = Some thumbnail
    /\ v = {| ID := 0%N;
              YoutubeID := youtube.VideoId id;
              Title := youtube.Title snippet;
              Description := youtube.Description snippet;
              PublishedAt := default zeroTime (parse (youtube.PublishedAt snippet));
              ThumbnailUrl := youtube.Url thumbnail |}.

Lemma videoOf_complete (item : youtube.SearchResult) :
  if complete item
  then exists v lines, worker.videoOf parse item = Ret (v, lines) /\ videoFor item v
  else worker.videoOf parse item = Panic nilDereference.
Proof.
  unfold complete, worker.videoOf, videoFor.
  destruct (youtube.Id item) as [id|]; [|reflexivity].
  destruct (youtube.Snippet item) as [snippet|]; [|reflexivity].
  destruct (youtube.Thumbnails snippet) as [thumbnails|] eqn:Ht; [|reflexivity].
  destruct (youtube.Default thumbnails) as [thumbnail|] eqn:Hd; [|reflexivity].
  destruct (parse (youtube.PublishedAt snippet)) as [t|] eqn:Hp; eexists _, _;
    (split; [reflexivity|]); exists id, snippet, thumbnails, thumbnail;
    repeat split; try assumption; rewrite Hp; reflexivity.
Qed.

Lemma videosOf_complete (items : list youtube.SearchResult) :
  forall videos log,
    if forallb complete items
    then exists vs lines,
        worker.videosOf parse items videos log = (Ret (videos ++ vs), log ++ lines)
        /\ Forall2 videoFor items vs
    else fst (worker.videosOf parse items videos log) = Panic nilDereference.
Proof.
  induction items as [|item items IH]; intros videos log.
  - exists [], []. rewrite !app_nil_r. split; [reflexivity|constructor].
  - cbn [forallb worker.videosOf]. pose proof (videoOf_complete item) as Hitem.
    destruct (complete item); cbn [andb].
    + destruct Hitem as (v & lines & -> & Hv).
      specialize (IH (videos ++ [v]) (log ++ lines)).
      destruct (forallb complete items); [|exact IH].
      destruct IH as (vs & lines' & -> & Hvs).
      exists (v :: vs), (lines ++ lines'). rewrite <- !app_assoc.
      split; [reflexivity|constructor; assumption].
    + rewrite Hitem. reflexivity.
Qed.

(** X12.  With a client, [fetchVideos] returns exactly when the call
    answered with a response all of whose results carry an id, a snippet
    and a default thumbnail; a nil response, or one result without one of
    these, makes it panic, error or no error. *)
Theorem fetchVideos_returns_iff_results_complete
  (client : youtube.Service) (searchKey : string) (since : Z) :
  (exists videos,
      fst (worker.fetchVideos parse (Some client) searchKey since) = Ret videos)
  <-> (exists response,
          fst (youtube.Do client (searchCall searchKey since)) = Some response
          /\ forallb complete (youtube.Items response) = true).
Proof.
  unfold worker.fetchVideos. fold (searchCall searchKey since).
  destruct (youtube.Do client (searchCall searchKey since)) as [[response|] err];
    cbn [fst].
  - set (log0 := match err with Some _ => _ | None => _ end).
    pose proof (videosOf_complete (youtube.Items response) [] log0) as H.
    destruct (forallb complete (youtube.Items response)) eqn:Hall.
    + destruct H as (vs & lines & -> & _).
      split; [intros _; exists response; split; [reflexivity|exact Hall]|].
      intros _. eexists. reflexivity.
    + rewrite H. split; [intros [? ?]; discriminate|].
      intros (response' & Heq & Hall'). injection Heq as <-. congruence.
  - split; [intros [? ?]; discriminate|intros (? & ? & _); discriminate].
Qed.

(** X13.  What [fetchVideos] returns has one video for every result of
    the response, in the same order, made of the result's video id,
    title, description and default thumbnail URL, without an object id;
    [publishedAt] is the parsed instant, or the zero time when it does
    not parse. *)
Theorem fetchVideos_maps_results_in_order
  (client : youtube.Service) (searchKey : string) (since : Z)
  (videos : list Video) (log : list string) :
  worker.fetchVideos parse (Some client) searchKey since = (Ret videos, log) ->
  exists response,
    fst (youtube.Do client (searchCall searchKey since)) = Some response
    /\ length videos = length (youtube.Items response)
    /\ Forall2
         (fun item v =>
            exists id snippet thumbnails thumbnail,
              youtube.Id item = Some id
              /\ youtube.Snippet item = Some snippet
              /\ youtube.Thumbnails snippet = Some thumbnails
              /\ youtube.Default thumbnails = Some thumbnail
              /\ v = {| ID := 0%N;
                        YoutubeID := youtube.VideoId id;
                        Title := youtube.Title snippet;
                        Description := youtube.Description snippet;
                        PublishedAt :=
                          default zeroTime (parse (youtube.PublishedAt snippet));
                        ThumbnailUrl := youtube.Url thumbnail |})
         (youtube.Items response) videos.
Proof.
  unfold worker.fetchVideos. fold (searchCall searchKey since).
  destruct (youtube.Do client (searchCall searchKey since)) as [[response|] err];
    [|discriminate].
  set (log0 := match err with Some _ => _ | None => _ end).
  pose proof (videosOf_complete (youtube.Items response) [] log0) as H.
  destruct (forallb complete (youtube.Items response)).
  - destruct H as (vs & lines & -> & Hvs). intros Heq. injection Heq as <- _.
    exists response. split; [reflexivity|].
    split; [symmetry; eapply Forall2_length, Hvs|exact Hvs].
  - intros Heq. rewrite Heq in H. discriminate.
Qed.

End Fetching.

(** A result without thumbnails among complete ones. *)
Example fetchVideos_panics_on_a_result_without_thumbnails :
  fst (worker.fetchVideos sample.parse
         (Some (sample.answering [sample.item "a" "A" "30"; sample.bare "b"])) "music" 0)
  = Panic nilDereference.
Proof. reflexivity. Qed.

(** Two results, the second with a date that does not parse. *)
Lemma fetchVideos_maps_results_in_order_witness :
  let client := sample.answering [sample.item "a" "A" "30"; sample.item "b" "B" "soon"] in
  worker.fetchVideos sample.parse (Some client) "music" 0
  = (Ret [{| ID := 0%N; YoutubeID := "a"; Title := "A"; Description := "";
             PublishedAt := 30; ThumbnailUrl := "t.jpg" |};
          {| ID := 0%N; YoutubeID := "b"; Title := "B"; Description := "";
             PublishedAt := zeroTime; ThumbnailUrl := "t.jpg" |}],
     ["Error: Unable to parse PublishedAt field"%string])
  /\ exists response,
      fst (youtube.Do client (searchCall "music" 0)) = Some response
      /\ length (youtube.Items response) = 2%nat.
Proof.
  intros client.
  assert (worker.fetchVideos sample.parse (Some client) "music" 0
          = (Ret [{| ID := 0%N; YoutubeID := "a"; Title := "A"; Description := "";
                     PublishedAt := 30; ThumbnailUrl := "t.jpg" |};
                  {| ID := 0%N; YoutubeID := "b"; Title := "B"; Description := "";
                     PublishedAt := zeroTime; ThumbnailUrl := "t.jpg" |}],
             ["Error: Unable to parse PublishedAt field"%string])) as Hfetch
    by (vm_compute; reflexivity).
  split; [exact Hfetch|].
  destruct (fetchVideos_maps_results_in_order sample.parse client "music" 0 _ _ Hfetch)
    as (response & Hdo & Hlen & _).
  exists response. split; [exact Hdo|]. rewrite <- Hlen. reflexivity.
Defined.

(** ** The poll loop *)

Lemma fold_logLine (lines : list string) (w : worker.World) :
  fold_left worker.logLine lines w
  = {| worker.existingCollections := worker.existingCollections w;
       worker.database := worker.database w;
       worker.logged := worker.logged w ++ lines;
       worker.calls := worker.calls w |}.
Proof.
  revert w. induction lines as [|line lines IH]; intros w.
  - simpl. rewrite app_nil_r. destruct w; reflexivity.
  - simpl. rewrite IH. world_simpl. rewrite <- app_assoc. reflexivity.
Qed.

(** X14.  A turn of the loop whose fetch returns no video does not touch
    the store: no call is made, the database and the cache stay as they
    are and only the fetch's lines and ["FETCHED: 0"] are logged.  A turn
    whose fetch returns videos persists them, all in one batch.  Either
    way the time after the fetch becomes the next [since]. *)
Theorem pollCycle_persists_only_what_was_fetched
  (parse : string -> option Z) (client : option youtube.Service) (searchTerm : string)
  (up : worker.Reach) (now lastFetchedTime : Z) (w : worker.World)
  (videos : list Video) (lines : list string) :
  worker.fetchVideos parse client searchTerm lastFetchedTime = (Ret videos, lines) ->
  exists w',
    worker.pollCycle parse client searchTerm up now (w, lastFetchedTime) = Ret (w', now)
    /\ (videos = [] ->
        w' = {| worker.existingCollections := worker.existingCollections w;
                worker.database := worker.database w;
                worker.logged := worker.logged w ++ lines ++ ["FETCHED: 0"%string];
                worker.calls := worker.calls w |})
    /\ (videos <> [] ->
        exists pre,
          worker.calls w'
          = worker.calls w ++ pre ++ [worker.InsertManyCall searchTerm videos false]
          /\ Forall (fun call => forall name documents ordered,
                         call <> worker.InsertManyCall name documents ordered) pre).
Proof.
  intros Hfetch. unfold worker.pollCycle. rewrite Hfetch, fold_logLine.
  eexists. split; [reflexivity|]. split.
  - intros ->. cbn [length Z.of_nat Z.eqb]. unfold worker.logLine. world_simpl.
    rewrite <- app_assoc. reflexivity.
  - intros Hne.
    replace (Z.of_nat (length videos) =? 0) with false
      by (symmetry; apply Z.eqb_neq; destruct videos; [congruence|simpl; lia]).
    set (w0 := worker.logLine _ _).
    destruct (saveVideosToDB_world up w0 searchTerm videos) as (Hcalls & _ & _).
    destruct (collectionExists_calls up w0 searchTerm) as (pre & Hpre & Hlist).
    exists (pre ++ if fst (worker.collectionExists up w0 searchTerm) then []
                   else [worker.CreateManyCall searchTerm worker.theIndexes]).
    rewrite Hcalls, Hpre, <- !app_assoc. split; [reflexivity|].
    apply Forall_app. split.
    + eapply Forall_impl; [exact Hlist|]. simpl. intros call -> ? ? ?. discriminate.
    + destruct (fst _); repeat constructor. intros ? ? ?. discriminate.
Qed.

(** A turn without a client. *)
Lemma pollCycle_persists_only_what_was_fetched_witness :
  worker.fetchVideos sample.parse None "music" 0
  = (Ret [], ["Error: youtubeClient not initialised"%string])
  /\ exists w',
      worker.pollCycle sample.parse None "music" worker.allUp 100 (scene.fresh, 0)
      = Ret (w', 100)
      /\ worker.calls w' = []
      /\ worker.database w' = ∅.
Proof.
  assert (worker.fetchVideos sample.parse None "music" 0
          = (Ret [], ["Error: youtubeClient not initialised"%string])) as Hfetch
    by reflexivity.
  split; [exact Hfetch|].
  destruct (pollCycle_persists_only_what_was_fetched sample.parse None "music"
              worker.allUp 100 0 scene.fresh [] _ Hfetch) as (w' & Hcycle & Hempty & _).
  exists w'. split; [exact Hcycle|]. rewrite (Hempty eq_refl). split; reflexivity.
Defined.

Lemma fetchVideos_complete (parse : string -> option Z) (client : youtube.Service)
  (searchKey : string) (since : Z) (response : youtube.SearchListResponse) :
  fst (youtube.Do client (searchCall searchKey since)) = Some response ->
  forallb complete (youtube.Items response) = true ->
  exists videos lines,
    worker.fetchVideos parse (Some client) searchKey since = (Ret videos, lines).
Proof.
  intros Hdo Hall. unfold worker.fetchVideos. fold (searchCall searchKey since).
  destruct (youtube.Do client (searchCall searchKey since)) as [response' err].
  cbn [fst] in Hdo. subst response'.
  set (log0 := match err with Some _ => _ | None => _ end).
  pose proof (videosOf_complete parse (youtube.Items response) [] log0) as H.
  rewrite Hall in H. destruct H as (vs & lines & -> & _). eauto.
Qed.

(** X15.  The loop goes through any number of turns without a panic when
    in each of them the client is nil or answers every call with a
    response whose results are complete, whatever the store does. *)
Theorem pollLoop_runs_on_complete_results
  (parse : string -> option Z) (searchTerm : string)
  (turns : list (option youtube.Service * worker.Reach * Z)) :
  Forall (fun turn =>
            match fst (fst turn) with
            | None => True
            | Some client =>
                forall call, exists response,
                  fst (youtube.Do client call) = Some response
                  /\ forallb complete (youtube.Items response) = true
            end) turns ->
  forall st, exists st', worker.pollLoop parse searchTerm turns st = Ret st'.
Proof.
  induction 1 as [|[[client up] now] turns Hturn _ IH]; intros [w since].
  - eexists. reflexivity.
  - cbn [fst] in Hturn. cbn [worker.pollLoop].
    assert (exists videos lines,
               worker.fetchVideos parse client searchTerm since = (Ret videos, lines))
      as (videos & lines & Hfetch).
    { destruct client as [client|]; [|eexists _, _; reflexivity].
      destruct (Hturn (searchCall searchTerm since)) as (response & Hdo & Hall).
      eapply fetchVideos_complete; eassumption. }
    assert (exists w', worker.pollCycle parse client searchTerm up now (w, since)
                       = Ret (w', now)) as [w' ->].
    { unfold worker.pollCycle. rewrite Hfetch. eexists. reflexivity. }
    apply IH.
Qed.

(** Three turns: results, no client, results again while the store is
    down. *)
Lemma pollLoop_runs_on_complete_results_witness :
  let turns :=
    [(Some (sample.answering [sample.item "a" "A" "30"]), worker.allUp, 10);
     (None, worker.allUp, 20);
     (Some (sample.answering [sample.item "b" "B" "40"]),
      {| worker.listUp := false; worker.indexUp := false; worker.insertUp := false |},
      30)] in
  exists st', worker.pollLoop sample.parse "music" turns (scene.fresh, 0) = Ret st'.
Proof.
  intros turns.
  apply (pollLoop_runs_on_complete_results sample.parse "music" turns).
  repeat constructor; cbn [fst]; intros call; eexists; split; reflexivity.
Defined.

(** ** What a persist changes *)

Lemma insertDocs_appends (ordered unique : bool) (batch : list Video) :
  forall (ds : list mongo.Doc) (next : N),
    exists added,
      fst (fst (mongo.insertDocs ordered unique batch ds next)) = ds ++ added
      /\ (length added <= length batch)%nat
      /\ Forall (fun d => mongo.decodes d = true) added.
Proof.
  induction batch as [|v batch IH]; intros ds next.
  - exists []. rewrite app_nil_r. repeat split; constructor.
  - cbn [mongo.insertDocs].
    destruct (unique && mongo.hasYoutubeId (YoutubeID v) ds).
    + destruct ordered.
      * exists []. rewrite app_nil_r. cbn [fst length]. repeat split; [lia|constructor].
      * destruct (IH ds next) as (added & Heq & Hlen & Hdec).
        destruct (mongo.insertDocs false unique batch ds next) as [[ds' next'] e].
        exists added. cbn [fst length] in *. repeat split; [exact Heq|lia|exact Hdec].
    + destruct (IH (ds ++ [mongo.stored v next]) (next + 1)%N)
        as (added & Heq & Hlen & Hdec).
      exists (mongo.stored v next :: added). rewrite Heq, <- app_assoc.
      cbn [length]. repeat split; [lia|constructor; [reflexivity|exact Hdec]].
Qed.

Lemma view_insert (db : mongo.Database) (name : string) (c : mongo.Collection) :
  mongo.view (<[name := c]> db) name = c.
Proof. unfold mongo.view. rewrite lookup_insert_eq. reflexivity. Qed.

Lemma CreateMany_view (reach : bool) (db : mongo.Database) (name : string)
  (models : list mongo.Index) :
  let db1 := fst (mongo.CreateMany reach db name models) in
  mongo.docs (mongo.view db1 name) = mongo.docs (mongo.view db name)
  /\ (forall i, mongo.hasIndex i (mongo.indexes (mongo.view db name)) = true ->
      mongo.hasIndex i (mongo.indexes (mongo.view db1 name)) = true)
  /\ (forall other, other <> name -> db1 !! other = db !! other)
  /\ (forall other, is_Some (db !! other) -> is_Some (db1 !! other)).
Proof.
  unfold mongo.CreateMany. destruct reach; cbn [fst]; [|repeat split; auto].
  rewrite view_insert. cbn [mongo.docs mongo.indexes].
  split; [reflexivity|]. split; [intros i; apply hasIndex_fold_addIndex|].
  split.
  - intros other Hne. apply lookup_insert_ne. congruence.
  - intros other Hin. destruct (decide (name = other)) as [->|Hne].
    + rewrite lookup_insert_eq. eauto.
    + rewrite lookup_insert_ne by exact Hne. exact Hin.
Qed.

Lemma InsertMany_view (reach ordered : bool) (db : mongo.Database) (name : string)
  (batch : list Video) :
  let db' := fst (mongo.InsertMany reach db name batch ordered) in
  (exists added,
      mongo.docs (mongo.view db' name) = mongo.docs (mongo.view db name) ++ added
      /\ (length added <= length batch)%nat
      /\ Forall (fun d => mongo.decodes d = true) added)
  /\ mongo.indexes (mongo.view db' name) = mongo.indexes (mongo.view db name)
  /\ (forall other, other <> name -> db' !! other = db !! other).
Proof.
  assert (exists added : list mongo.Doc,
             mongo.docs (mongo.view db name) = mongo.docs (mongo.view db name) ++ added
             /\ (length added <= length batch)%nat
             /\ Forall (fun d => mongo.decodes d = true) added) as Hsame.
  { exists []. rewrite app_nil_r. repeat split; [simpl; lia|constructor]. }
  unfold mongo.InsertMany. destruct batch as [|v batch]; [repeat split; auto|].
  destruct reach; [|repeat split; auto].
  destruct (insertDocs_appends ordered
              (mongo.hasIndex mongo.UniqueYoutubeId (mongo.indexes (mongo.view db name)))
              (v :: batch) (mongo.docs (mongo.view db name))
              (mongo.nextId (mongo.view db name))) as (added & Heq & Hlen & Hdec).
  destruct (mongo.insertDocs _ _ _ _ _) as [[ds next] errors].
  cbn [fst] in *. rewrite view_insert. cbn [mongo.docs mongo.indexes].
  split; [exists added; repeat split; assumption|]. split; [reflexivity|].
  intros other Hne. apply lookup_insert_ne. congruence.
Qed.

(** X16.  A persist only adds.  Whatever the store answers: the other
    collections are left as they are; the documents of the collection
    stay where they are and at most one document per video of the batch
    is appended after them, each of which decodes; no index of the
    collection is lost. *)
Theorem saveVideosToDB_only_adds
  (up : worker.Reach) (w : worker.World) (searchKey : string) (videos : list Video) :
  let db := worker.database w in
  let db' := worker.database (worker.saveVideosToDB up w searchKey videos) in
  (forall other, other <> searchKey -> db' !! other = db !! other)
  /\ (exists added,
         mongo.docs (mongo.view db' searchKey)
         = mongo.docs (mongo.view db searchKey) ++ added
         /\ (length added <= length videos)%nat
         /\ Forall (fun d => mongo.decodes d = true) added)
  /\ (forall i, mongo.hasIndex i (mongo.indexes (mongo.view db searchKey)) = true ->
      mongo.hasIndex i (mongo.indexes (mongo.view db' searchKey)) = true).
Proof.
  intros db db'. subst db'.
  destruct (saveVideosToDB_world up w searchKey videos) as (_ & -> & _).
  set (db1 := if fst (worker.collectionExists up w searchKey) then _ else _).
  assert (mongo.docs (mongo.view db1 searchKey) = mongo.docs (mongo.view db searchKey)
          /\ (forall i, mongo.hasIndex i (mongo.indexes (mongo.view db searchKey)) = true ->
              mongo.hasIndex i (mongo.indexes (mongo.view db1 searchKey)) = true)
          /\ (forall other, other <> searchKey -> db1 !! other = db !! other))
    as (Hdocs & Hidx & Hother).
  { subst db1. destruct (fst _); [repeat split; auto|].
    destruct (CreateMany_view (worker.indexUp up) db searchKey worker.theIndexes)
      as (H1 & H2 & H3 & _).
    repeat split; assumption. }
  destruct (InsertMany_view (worker.insertUp up) false db1 searchKey videos)
    as (Hadd & Hidx' & Hother').
  split; [|split].
  - intros other Hne. rewrite Hother', Hother by exact Hne. reflexivity.
  - rewrite <- Hdocs. exact Hadd.
  - intros i Hi. rewrite Hidx'. apply Hidx, Hi.
Qed.

(** ** Unique ids and repeated batches *)

(** The collection as the insert of a persist finds it, and what the
    insert makes of its documents. *)
Lemma saveVideosToDB_view
  (up : worker.Reach) (w : worker.World) (searchKey : string) (videos : list Video) :
  let db := worker.database w in
  let existed := fst (worker.collectionExists up w searchKey) in
  let db1 :=
    if existed then db
    else fst (mongo.CreateMany (worker.indexUp up) db searchKey worker.theIndexes) in
  let c1 := mongo.view db1 searchKey in
  let c' := mongo.view (worker.database (worker.saveVideosToDB up w searchKey videos))
              searchKey in
  mongo.docs c1 = mongo.docs (mongo.view db searchKey)
  /\ (forall i, mongo.hasIndex i (mongo.indexes (mongo.view db searchKey)) = true ->
      mongo.hasIndex i (mongo.indexes c1) = true)
  /\ mongo.indexes c' = mongo.indexes c1
  /\ mongo.docs c'
     = if worker.insertUp up
       then fst (fst (mongo.insertDocs false
                        (mongo.hasIndex mongo.UniqueYoutubeId (mongo.indexes c1))
                        videos (mongo.docs c1) (mongo.nextId c1)))
       else mongo.docs c1.
Proof.
  intros db existed db1 c1 c'. subst c'.
  destruct (saveVideosToDB_world up w searchKey videos) as (_ & -> & _).
  fold db existed db1.
  assert (mongo.docs c1 = mongo.docs (mongo.view db searchKey)
          /\ (forall i, mongo.hasIndex i (mongo.indexes (mongo.view db searchKey)) = true ->
              mongo.hasIndex i (mongo.indexes c1) = true)) as [Hdocs Hidx].
  { subst c1 db1. destruct existed; [split; auto|].
    destruct (CreateMany_view (worker.indexUp up) db searchKey worker.theIndexes)
      as (H1 & H2 & _).
    split; assumption. }
  split; [exact Hdocs|]. split; [exact Hidx|].
  destruct (InsertMany_view (worker.insertUp up) false db1 searchKey videos)
    as (_ & Hidx' & _).
  split; [exact Hidx'|].
  unfold mongo.InsertMany. fold c1.
  destruct videos as [|v videos]; [destruct (worker.insertUp up); reflexivity|].
  destruct (worker.insertUp up); [|reflexivity].
  destruct (mongo.insertDocs _ _ _ _ _) as [[ds next] errors].
  cbn [fst]. rewrite view_insert. reflexivity.
Qed.

Lemma countYoutubeId_present (id : string) (ds : list mongo.Doc) :
  (0 < mongo.countYoutubeId id ds)%nat -> mongo.hasYoutubeId id ds = true.
Proof.
  intros H. destruct (mongo.hasYoutubeId id ds) eqn:Hhas; [reflexivity|].
  rewrite (countYoutubeId_absent id ds Hhas) in H. lia.
Qed.

Lemma hasYoutubeId_count (id : string) (ds : list mongo.Doc) :
  mongo.hasYoutubeId id ds = true -> (0 < mongo.countYoutubeId id ds)%nat.
Proof.
  induction ds as [|d ds IH]; [discriminate|].
  unfold mongo.hasYoutubeId, mongo.countYoutubeId in *. simpl.
  destruct (String.eqb _ id); simpl; [lia|exact IH].
Qed.

Lemma insertDocs_all_present (batch : list Video) (ds : list mongo.Doc) (next : N) :
  Forall (fun v => mongo.hasYoutubeId (YoutubeID v) ds = true) batch ->
  fst (fst (mongo.insertDocs false true batch ds next)) = ds.
Proof.
  induction 1 as [|v batch Hv _ IH]; [reflexivity|].
  cbn [mongo.insertDocs andb]. rewrite Hv.
  destruct (mongo.insertDocs false true batch ds next) as [[ds' next'] e].
  exact IH.
Qed.

(** X17.  Under the unique index, ids stay unique: if no [youtubeId]
    occurs twice in the collection before a persist, none does after it,
    whatever the batch holds (ids already stored, the same id several
    times) and whatever the store answers. *)
Theorem saveVideosToDB_keeps_ids_unique
  (up : worker.Reach) (w : worker.World) (searchKey : string)
  (videos : list Video) (c : mongo.Collection) :
  worker.database w !! searchKey = Some c ->
  mongo.hasIndex mongo.UniqueYoutubeId (mongo.indexes c) = true ->
  (forall id, (mongo.countYoutubeId id (mongo.docs c) <= 1)%nat) ->
  let c' := mongo.view (worker.database (worker.saveVideosToDB up w searchKey videos))
              searchKey in
  mongo.hasIndex mongo.UniqueYoutubeId (mongo.indexes c') = true
  /\ forall id, (mongo.countYoutubeId id (mongo.docs c') <= 1)%nat.
Proof.
  intros Hc Hunique Hnodup c'. subst c'.
  destruct (saveVideosToDB_view up w searchKey videos) as (Hdocs & Hidx & -> & ->).
  assert (mongo.view (worker.database w) searchKey = c) as Hview
    by (unfold mongo.view; rewrite Hc; reflexivity).
  rewrite Hview in Hdocs, Hidx. specialize (Hidx _ Hunique).
  split; [exact Hidx|]. rewrite Hidx, Hdocs. intros id.
  destruct (worker.insertUp up); [|apply Hnodup].
  pose proof (insertDocs_unordered videos (mongo.docs c)
                (mongo.nextId (mongo.view
                   (if fst (worker.collectionExists up w searchKey)
                    then worker.database w
                    else fst (mongo.CreateMany (worker.indexUp up) (worker.database w)
                                searchKey worker.theIndexes)) searchKey))) as H.
  destruct (mongo.insertDocs false true videos _ _) as [[ds next] errors].
  destruct H as (_ & Hold & Hnew & _). cbn [fst].
  destruct (mongo.hasYoutubeId id (mongo.docs c)) eqn:Hhas.
  - rewrite (Hold id Hhas). apply Hnodup.
  - rewrite (Hnew id Hhas). destruct (existsb _ videos); lia.
Qed.

(** The batch [b, d, d] persisted into a collection holding [a, b]. *)
Lemma saveVideosToDB_keeps_ids_unique_witness :
  let w := scene.collecting [scene.a; scene.b] in
  let videos := [scene.video "b" 20; scene.video "d" 5; scene.video "d" 5] in
  let c := scene.indexed [scene.a; scene.b] in
  let c' := mongo.view (worker.database (worker.saveVideosToDB worker.allUp w "music" videos))
              "music" in
  worker.database w !! "music"%string = Some c
  /\ mongo.hasIndex mongo.UniqueYoutubeId (mongo.indexes c) = true
  /\ map (fun d => YoutubeID (mongo.fields d)) (mongo.docs c') = ["a"; "b"; "d"]%string
  /\ forall id, (mongo.countYoutubeId id (mongo.docs c') <= 1)%nat.
Proof.
  intros w videos c c'.
  assert (worker.database w !! "music"%string = Some c) as Hc by (vm_compute; reflexivity).
  assert (mongo.hasIndex mongo.UniqueYoutubeId (mongo.indexes c) = true) as Hunique
    by reflexivity.
  split; [exact Hc|]. split; [exact Hunique|]. split; [vm_compute; reflexivity|].
  apply (saveVideosToDB_keeps_ids_unique worker.allUp w "music" videos c Hc Hunique).
  intros id. change (mongo.docs c) with ([scene.a] ++ [scene.b]).
  unfold scene.a, scene.b.
  rewrite countYoutubeId_app, !countYoutubeId_stored.
  cbn [YoutubeID scene.video].
  destruct (String.eqb_spec "a" id) as [Ha|Ha];
    destruct (String.eqb_spec "b" id) as [Hb|Hb]; try lia.
  rewrite <- Hb in Ha. discriminate Ha.
Defined.

(** X18.  Persisting a batch a second time adds nothing: after a persist
    that reached the store, under the unique index, a persist of the same
    batch leaves the documents of the collection exactly as they are. *)
Theorem saveVideosToDB_twice_adds_nothing
  (up up' : worker.Reach) (w : worker.World) (searchKey : string)
  (videos : list Video) (c : mongo.Collection) :
  worker.database w !! searchKey = Some c ->
  mongo.hasIndex mongo.UniqueYoutubeId (mongo.indexes c) = true ->
  worker.insertUp up = true ->
  let w1 := worker.saveVideosToDB up w searchKey videos in
  let w2 := worker.saveVideosToDB up' w1 searchKey videos in
  mongo.docs (mongo.view (worker.database w2) searchKey)
  = mongo.docs (mongo.view (worker.database w1) searchKey).
Proof.
  intros Hc Hunique Hup w1 w2. subst w2.
  destruct (saveVideosToDB_view up w searchKey videos) as (Hdocs & Hidx & Hidx1 & Hdocs1).
  fold w1 in Hidx1, Hdocs1.
  assert (mongo.view (worker.database w) searchKey = c) as Hview
    by (unfold mongo.view; rewrite Hc; reflexivity).
  rewrite Hview in Hdocs, Hidx. specialize (Hidx _ Hunique).
  rewrite Hup, Hidx, Hdocs in Hdocs1.
  assert (Forall (fun v => mongo.hasYoutubeId (YoutubeID v)
                             (mongo.docs (mongo.view (worker.database w1) searchKey))
                           = true) videos) as Hall.
  { rewrite Hdocs1.
    match goal with
    | |- context [mongo.insertDocs false true videos ?ds ?n] =>
        pose proof (insertDocs_unordered videos ds n) as H;
        destruct (mongo.insertDocs false true videos ds n) as [[ds1 next1] errors]
    end.
    destruct H as (_ & Hold & Hnew & _). cbn [fst].
    apply List.Forall_forall. intros v Hv. apply countYoutubeId_present.
    destruct (mongo.hasYoutubeId (YoutubeID v) (mongo.docs c)) eqn:Hhas.
    - rewrite (Hold _ Hhas). apply hasYoutubeId_count, Hhas.
    - rewrite (Hnew _ Hhas).
      replace (existsb _ videos) with true; [lia|].
      symmetry. apply existsb_exists. exists v. split; [exact Hv|apply String.eqb_refl]. }
  destruct (saveVideosToDB_view up' w1 searchKey videos) as (Hdocs' & Hidx' & _ & ->).
  rewrite Hdocs'.
  rewrite (Hidx' mongo.UniqueYoutubeId) by (rewrite Hidx1; exact Hidx).
  destruct (worker.insertUp up'); [|reflexivity].
  apply insertDocs_all_present, Hall.
Qed.

(** The batch [b, d] persisted twice into a collection holding [a, b]. *)
Lemma saveVideosToDB_twice_adds_nothing_witness :
  let w := scene.collecting [scene.a; scene.b] in
  let videos := [scene.video "b" 20; scene.video "d" 5] in
  let w1 := worker.saveVideosToDB worker.allUp w "music" videos in
  let w2 := worker.saveVideosToDB worker.allUp w1 "music" videos in
  worker.database w !! "music"%string = Some (scene.indexed [scene.a; scene.b])
  /\ length (mongo.docs (mongo.view (worker.database w1) "music")) = 3%nat
  /\ mongo.docs (mongo.view (worker.database w2) "music")
     = mongo.docs (mongo.view (worker.database w1) "music").
Proof.
  intros w videos w1 w2.
  assert (worker.database w !! "music"%string = Some (scene.indexed [scene.a; scene.b]))
    as Hc by (vm_compute; reflexivity).
  split; [exact Hc|]. split; [vm_compute; reflexivity|].
  exact (saveVideosToDB_twice_adds_nothing worker.allUp worker.allUp w "music" videos _
           Hc eq_refl eq_refl).
Defined.

(** ** The first persist *)

(** X19.  The first persist for a search term the store does not know,
    index creation and insert reaching the store: afterwards the
    collection carries exactly the three indexes, and because they were
    created before the insert, every [youtubeId] of the batch is stored
    exactly once even if the batch repeats it. *)
Theorem first_persist_indexes_then_inserts
  (up : worker.Reach) (w : worker.World) (searchKey : string) (videos : list Video) :
  worker.database w !! searchKey = None ->
  ~ In searchKey (worker.existingCollections w) ->
  worker.indexUp up = true ->
  worker.insertUp up = true ->
  let c' := mongo.view (worker.database (worker.saveVideosToDB up w searchKey videos))
              searchKey in
  mongo.indexes c'
  = [mongo.PublishedAtDesc; mongo.TextTitleDescription; mongo.UniqueYoutubeId]
  /\ (forall v, In v videos -> mongo.countYoutubeId (YoutubeID v) (mongo.docs c') = 1%nat)
  /\ (forall id, (mongo.countYoutubeId id (mongo.docs c') <= 1)%nat)
  /\ (length (mongo.docs c') <= length videos)%nat.
Proof.
  intros Hout Hmiss Hindex Hinsert c'. subst c'.
  apply keywordExistsIn_false in Hmiss.
  destruct (saveVideosToDB_view up w searchKey videos) as (_ & _ & -> & ->).
  rewrite (collectionExists_absent up w searchKey Hout Hmiss), Hindex, Hinsert.
  unfold mongo.CreateMany. cbn [fst]. rewrite view_insert.
  cbn [mongo.docs mongo.indexes mongo.nextId]. unfold mongo.view. rewrite Hout.
  cbn [default mongo.docs mongo.indexes mongo.nextId mongo.emptyCollection].
  change (fold_left mongo.addIndex worker.theIndexes [])
    with [mongo.PublishedAtDesc; mongo.TextTitleDescription; mongo.UniqueYoutubeId].
  split; [reflexivity|].
  change (mongo.hasIndex mongo.UniqueYoutubeId
            [mongo.PublishedAtDesc; mongo.TextTitleDescription; mongo.UniqueYoutubeId])
    with true.
  pose proof (insertDocs_unordered videos [] 1%N) as H.
  destruct (insertDocs_appends false true videos [] 1%N) as (added & Happ & Hlen & _).
  destruct (mongo.insertDocs false true videos [] 1) as [[ds next] errors].
  destruct H as (_ & _ & Hnew & _). cbn [fst] in *.
  split; [|split].
  - intros v Hv. rewrite (Hnew _ eq_refl).
    replace (existsb _ videos) with true; [reflexivity|].
    symmetry. apply existsb_exists. exists v. split; [exact Hv|apply String.eqb_refl].
  - intros id. rewrite (Hnew _ eq_refl). destruct (existsb _ videos); lia.
  - rewrite Happ. exact Hlen.
Qed.

(** The batch [a, b, a] on an empty database. *)
Lemma first_persist_indexes_then_inserts_witness :
  let videos := [scene.video "a" 30; scene.video "b" 20; scene.video "a" 30] in
  let c' := mongo.view
              (worker.database (worker.saveVideosToDB worker.allUp scene.fresh "music" videos))
              "music" in
  worker.database scene.fresh !! "music"%string = None
  /\ ~ In "music"%string (worker.existingCollections scene.fresh)
  /\ map (fun d => YoutubeID (mongo.fields d)) (mongo.docs c') = ["a"; "b"]%string
  /\ mongo.indexes c'
     = [mongo.PublishedAtDesc; mongo.TextTitleDescription; mongo.UniqueYoutubeId].
Proof.
  intros videos c'.
  assert (~ In "music"%string (worker.existingCollections scene.fresh)) as Hmiss
    by (intros []).
  split; [reflexivity|]. split; [exact Hmiss|]. split; [vm_compute; reflexivity|].
  apply (first_persist_indexes_then_inserts worker.allUp scene.fresh "music" videos
           eq_refl Hmiss eq_refl eq_refl).
Defined.

(** ** An index creation that fails *)

Lemma insertDocs_without_index (ordered : bool) (batch : list Video) :
  forall (ds : list mongo.Doc) (next : N),
    length (fst (fst (mongo.insertDocs ordered false batch ds next)))
    = (length ds + length batch)%nat.
Proof.
  induction batch as [|v batch IH]; intros ds next.
  - simpl. lia.
  - cbn [mongo.insertDocs andb]. rewrite IH, length_app. simpl. lia.
Qed.

Lemma saveAll_without_index (searchKey : string)
  (batches : list (worker.Reach * list Video)) :
  forall w,
    is_Some (worker.database w !! searchKey) ->
    mongo.indexes (mongo.view (worker.database w) searchKey) = [] ->
    Forall (fun b => worker.listUp (fst b) = true) batches ->
    let final := mongo.view (worker.database (worker.saveAll w searchKey batches))
                   searchKey in
    mongo.indexes final = []
    /\ (Forall (fun b => worker.insertUp (fst b) = true) batches ->
        length (mongo.docs final)
        = (length (mongo.docs (mongo.view (worker.database w) searchKey))
           + length (concat (map snd batches)))%nat).
Proof.
  induction batches as [|[up videos] batches IH]; intros w Hin Hnone Hlist.
  - split; [exact Hnone|]. intros _. simpl. lia.
  - apply Forall_cons in Hlist as [Hup Hlist]. cbn [fst] in Hup.
    change (worker.saveAll w searchKey ((up, videos) :: batches))
      with (worker.saveAll (worker.saveVideosToDB up w searchKey videos) searchKey batches).
    destruct (saveVideosToDB_later searchKey up w videos Hin Hup) as [_ Hin'].
    destruct (saveVideosToDB_view up w searchKey videos) as (_ & _ & Hidx & Hdocs).
    rewrite (collectionExists_present up w searchKey Hin Hup) in Hidx, Hdocs.
    rewrite Hnone in Hidx, Hdocs.
    destruct (IH _ Hin' Hidx Hlist) as [Hfinal Hlen].
    split; [exact Hfinal|].
    intros Hins. apply Forall_cons in Hins as [Hins Hrest]. cbn [fst] in Hins.
    rewrite (Hlen Hrest), Hdocs, Hins.
    change (mongo.hasIndex mongo.UniqueYoutubeId []) with false.
    rewrite insertDocs_without_index. cbn [map concat snd]. rewrite length_app. lia.
Qed.

(** X20.  An index creation that fails is not made up for.  When on the
    first persist the index creation fails and the insert succeeds, the
    collection comes to exist without any index; every later persist
    finds it and creates none, so the collection has no unique index and
    every video of every later batch is stored, ids already stored
    included. *)
Theorem failed_index_creation_is_not_retried
  (w : worker.World) (searchKey : string) (up : worker.Reach) (videos : list Video)
  (batches : list (worker.Reach * list Video)) :
  worker.database w !! searchKey = None ->
  ~ In searchKey (worker.existingCollections w) ->
  worker.indexUp up = false ->
  worker.insertUp up = true ->
  videos <> [] ->
  Forall (fun b => worker.listUp (fst b) = true) batches ->
  let final :=
    mongo.view (worker.database (worker.saveAll w searchKey ((up, videos) :: batches)))
      searchKey in
  mongo.indexes final = []
  /\ (Forall (fun b => worker.insertUp (fst b) = true) batches ->
      length (mongo.docs final)
      = (length videos + length (concat (map snd batches)))%nat).
Proof.
  intros Hout Hmiss Hindex Hinsert Hvideos Hlist.
  change (worker.saveAll w searchKey ((up, videos) :: batches))
    with (worker.saveAll (worker.saveVideosToDB up w searchKey videos) searchKey batches).
  pose proof Hmiss as Hmiss'. apply keywordExistsIn_false in Hmiss'.
  destruct (saveVideosToDB_first searchKey up w videos Hout Hmiss') as [_ Hin].
  specialize (Hin (or_intror (conj Hinsert Hvideos))).
  destruct (saveVideosToDB_view up w searchKey videos) as (_ & _ & Hidx & Hdocs).
  rewrite (collectionExists_absent up w searchKey Hout Hmiss'), Hindex in Hidx, Hdocs.
  rewrite Hinsert in Hdocs.
  unfold mongo.CreateMany in Hidx, Hdocs. cbn [fst] in Hidx, Hdocs.
  assert (mongo.view (worker.database w) searchKey = mongo.emptyCollection) as Hview
    by (unfold mongo.view; rewrite Hout; reflexivity).
  rewrite Hview in Hidx, Hdocs.
  cbn [mongo.indexes mongo.docs mongo.nextId mongo.emptyCollection] in Hidx, Hdocs.
  change (mongo.hasIndex mongo.UniqueYoutubeId []) with false in Hdocs.
  destruct (saveAll_without_index searchKey batches _ Hin Hidx Hlist) as [Hfinal Hlen].
  split; [exact Hfinal|].
  intros Hins. rewrite (Hlen Hins), Hdocs, insertDocs_without_index. simpl. lia.
Qed.

(** The same video persisted three times after a failed index creation. *)
Lemma failed_index_creation_is_not_retried_witness :
  let up := {| worker.listUp := true; worker.indexUp := false; worker.insertUp := true |} in
  let batches := [(worker.allUp, [scene.video "a" 30]); (worker.allUp, [scene.video "a" 30])] in
  let final :=
    mongo.view
      (worker.database
         (worker.saveAll scene.fresh "music" ((up, [scene.video "a" 30]) :: batches)))
      "music" in
  worker.database scene.fresh !! "music"%string = None
  /\ mongo.indexes final = []
  /\ map (fun d => YoutubeID (mongo.fields d)) (mongo.docs final) = ["a"; "a"; "a"]%string.
Proof.
  intros up batches final.
  assert (~ In "music"%string (worker.existingCollections scene.fresh)) as Hmiss
    by (intros []).
  assert (Forall (fun b => worker.listUp (fst b) = true) batches) as Hlist
    by (repeat constructor).
  split; [reflexivity|].
  split; [|vm_compute; reflexivity].
  apply (failed_index_creation_is_not_retried scene.fresh "music" up [scene.video "a" 30]
           batches eq_refl Hmiss eq_refl eq_refl ltac:(discriminate) Hlist).
Defined.

(** ** The collection cache of the worker *)

Lemma saveVideosToDB_cache
  (up : worker.Reach) (w : worker.World) (searchKey : string) (videos : list Video) :
  worker.existingCollections (worker.saveVideosToDB up w searchKey videos)
  = worker.existingCollections (snd (worker.collectionExists up w searchKey)).
Proof.
  unfold worker.saveVideosToDB.
  destruct (worker.collectionExists up w searchKey) as [existed w1]. cbn [snd].
  destruct existed; cbn [negb].
  - destruct (mongo.InsertMany _ _ _ _ _) as [db [|]]; reflexivity.
  - unfold worker.createIndexes.
    destruct (mongo.CreateMany _ _ _ _) as [db1 [|]];
      destruct (mongo.InsertMany _ _ _ _ _) as [db [|]]; reflexivity.
Qed.

Lemma saveVideosToDB_grows
  (up : worker.Reach) (w : worker.World) (searchKey : string) (videos : list Video)
  (name : string) :
  is_Some (worker.database w !! name) ->
  is_Some (worker.database (worker.saveVideosToDB up w searchKey videos) !! name).
Proof.
  intros Hin. destruct (saveVideosToDB_world up w searchKey videos) as (_ & -> & _).
  apply InsertMany_keeps. destruct (fst _); [exact Hin|].
  apply CreateMany_view, Hin.
Qed.

Lemma collectionExists_sound (up : worker.Reach) (w : worker.World) (searchKey : string) :
  (forall name, In name (worker.existingCollections w) ->
                is_Some (worker.database w !! name)) ->
  (fst (worker.collectionExists up w searchKey) = true ->
   is_Some (worker.database w !! searchKey))
  /\ (forall name,
         In name (worker.existingCollections (snd (worker.collectionExists up w searchKey))) ->
         is_Some (worker.database w !! name)).
Proof.
  intros Hsound. unfold worker.collectionExists.
  destruct (keywordExistsIn searchKey (worker.existingCollections w)) eqn:Hhit.
  - cbn [fst snd]. split; [|exact Hsound].
    intros _. apply Hsound, keywordExistsIn_In, Hhit.
  - world_simpl. unfold mongo.ListCollectionNames.
    destruct (worker.listUp up); world_simpl.
    + split; [intros H; apply names_lookup, keywordExistsIn_In, H|].
      intros name. apply names_lookup.
    + split; [discriminate|exact Hsound].
Qed.

(** X21.  Every name in the worker's cache is a collection of the
    database: the property is kept by any run of persists, whatever the
    store answers, and while it holds [collectionExists] answers [true]
    only for a collection that exists, so index creation is never
    skipped for a collection that is missing. *)
Theorem worker_cache_names_only_collections
  (w : worker.World) (searchKey : string) (batches : list (worker.Reach * list Video)) :
  (forall name, In name (worker.existingCollections w) ->
                is_Some (worker.database w !! name)) ->
  let w' := worker.saveAll w searchKey batches in
  (forall name, In name (worker.existingCollections w') ->
                is_Some (worker.database w' !! name))
  /\ (forall up, fst (worker.collectionExists up w' searchKey) = true ->
                 is_Some (worker.database w' !! searchKey)).
Proof.
  intros Hsound w'. subst w'.
  assert (forall name,
             In name (worker.existingCollections (worker.saveAll w searchKey batches)) ->
             is_Some (worker.database (worker.saveAll w searchKey batches) !! name))
    as Hfinal.
  { revert w Hsound. induction batches as [|[up videos] batches IH]; intros w Hsound.
    - exact Hsound.
    - change (worker.saveAll w searchKey ((up, videos) :: batches))
        with (worker.saveAll (worker.saveVideosToDB up w searchKey videos) searchKey
                batches).
      apply IH. intros name Hname. rewrite saveVideosToDB_cache in Hname.
      apply saveVideosToDB_grows.
      apply (collectionExists_sound up w searchKey Hsound), Hname. }
  split; [exact Hfinal|].
  intros up. apply (collectionExists_sound up _ searchKey Hfinal).
Qed.

(** A worker that knows ["music"] persists two batches for ["news"]:
    the first refreshes the cache to ["music"] and creates ["news"], the
    second refreshes it to both names. *)
Lemma worker_cache_names_only_collections_witness :
  let w := scene.collecting [scene.a] in
  let batches :=
    [(worker.allUp, [scene.video "x" 30]); (worker.allUp, [scene.video "y" 20])] in
  let w' := worker.saveAll w "news" batches in
  (forall name, In name (worker.existingCollections w) ->
                is_Some (worker.database w !! name))
  /\ In "music"%string (worker.existingCollections w)
  /\ In "music"%string (worker.existingCollections w')
  /\ In "news"%string (worker.existingCollections w')
  /\ length (worker.existingCollections w') = 2%nat
  /\ (forall name, In name (worker.existingCollections w') ->
                   is_Some (worker.database w' !! name))
  /\ (fst (worker.collectionExists worker.allUp w' "news") = true ->
      is_Some (worker.database w' !! "news"%string)).
Proof.
  intros w batches w'.
  assert (forall name, In name (worker.existingCollections w) ->
                       is_Some (worker.database w !! name)) as Hsound.
  { intros name [<-|[]]. vm_compute. eauto. }
  destruct (worker_cache_names_only_collections w "news" batches Hsound)
    as [Hfinal Hexists].
  split; [exact Hsound|].
  split; [left; reflexivity|].
  split; [vm_compute; tauto|].
  split; [vm_compute; tauto|].
  split; [vm_compute; reflexivity|].
  split; [exact Hfinal|apply Hexists].
Defined.

(** ** Start-up *)

(** X22.  The worker goes on to connect exactly when a search term is
    given as first argument and [API_KEY] and [MONGO_DB] are set; the
    term is then that argument, further arguments are ignored,
    [MONGO_URI] falls back to the local address and [POLL_INTERVAL] to 10
    seconds (with a line logged) when it is not set or not a number.
    Otherwise it gives up, naming the first thing missing in the order
    search term, [API_KEY], [MONGO_DB].  The server needs [MONGO_DB]
    only. *)
Theorem startup_requirements
  (program term : string) (more : list string) (getenv : string -> string) :
  let args := program :: term :: more in
  (forall settings log,
      startup.worker args getenv = Ret (startup.Started settings log)
      <-> getenv "API_KEY" <> ""%string
          /\ getenv "MONGO_DB" <> ""%string
          /\ settings
             = {| startup.searchTerm := term;
                  startup.apiKey := getenv "API_KEY";
                  startup.workerMongoURI :=
                    if String.eqb (getenv "MONGO_URI") ""
                    then "mongodb://0.0.0.0:27017" else getenv "MONGO_URI";
                  startup.workerMongoDbName := getenv "MONGO_DB";
                  startup.pollInterval :=
                    default 10 (strconv.Atoi (getenv "POLL_INTERVAL")) |}
          /\ log = match strconv.Atoi (getenv "POLL_INTERVAL") with
                   | Some _ => []
                   | None =>
                       ["Unable to set polling interval. Defaulting to 10 seconds"%string]
                   end)
  /\ (getenv "API_KEY" = ""%string ->
      startup.worker args getenv = Ret (startup.Fatal "Missing API_KEY"))
  /\ (getenv "API_KEY" <> ""%string -> getenv "MONGO_DB" = ""%string ->
      startup.worker args getenv = Ret (startup.Fatal "MONGO_DB missing"))
  /\ startup.worker [program] getenv
     = Ret (startup.Fatal "Missing search term, send as argument")
  /\ (forall settings log,
         startup.server getenv = startup.Started settings log
         <-> getenv "MONGO_DB" <> ""%string
             /\ settings
                = {| startup.serverMongoURI :=
                       if String.eqb (getenv "MONGO_URI") ""
                       then "mongodb://0.0.0.0:27017" else getenv "MONGO_URI";
                     startup.serverMongoDbName := getenv "MONGO_DB" |}
             /\ log = []).
Proof.
  intros args. subst args. unfold startup.worker, startup.server.
  cbn [length Nat.eqb nth_error].
  split; [|split; [|split; [|split]]].
  - intros settings log.
    destruct (String.eqb_spec (getenv "API_KEY") "") as [Hkey|Hkey];
      destruct (String.eqb_spec (getenv "MONGO_DB") "") as [Hdb|Hdb];
      destruct (strconv.Atoi (getenv "POLL_INTERVAL")) as [n|];
      (split;
       [intros H; try discriminate H; injection H as <- <-;
        repeat split; first [assumption|reflexivity]
       |intros (Hk & Hd & -> & ->); try contradiction; reflexivity]).
  - intros Hkey. rewrite Hkey. reflexivity.
  - intros Hkey Hdb. apply String.eqb_neq in Hkey. rewrite Hkey, Hdb. reflexivity.
  - reflexivity.
  - intros settings log.
    destruct (String.eqb_spec (getenv "MONGO_DB") "") as [Hdb|Hdb];
      (split;
       [intros H; try discriminate H; injection H as <- <-;
        repeat split; first [assumption|reflexivity]
       |intros (Hd & -> & ->); try contradiction; reflexivity]).
Qed.

(** A worker started as [worker music extra] with the three variables
    set and [POLL_INTERVAL=soon]. *)
Example worker_started_with_defaults :
  startup.worker ["worker"; "music"; "extra"]%string
    (sample.env [("API_KEY", "k"); ("MONGO_DB", "videos"); ("POLL_INTERVAL", "soon")])
  = Ret (startup.Started
           {| startup.searchTerm := "music"; startup.apiKey := "k";
              startup.workerMongoURI := "mongodb://0.0.0.0:27017";
              startup.workerMongoDbName := "videos"; startup.pollInterval := 10 |}
           ["Unable to set polling interval. Defaulting to 10 seconds"%string]).
Proof. reflexivity. Qed.
